(** * jsdomutils: a shallow embedding of [computesize.js] and [domutils.js]

    The library is a thin layer over the browser DOM.  The embedding keeps
    the split of the sources:

    - [Js]: the fragment of the JavaScript language the sources rely on
      (values, ToString, string concatenation, [substring], [parseInt],
      completions that are either normal or a thrown exception);
    - [StringUtils], [Window], [Css], [Layout]: the interfaces of the
      collaborators that are not part of the repository (the
      [jsstringutils] package and the platform);
    - [Element]: the mutable state of one element (class list, dataset,
      inline style), threaded through a state-and-exception monad;
    - [ComputeSize], [ComputeSize_part_000]: the two versions of the
      computed-size accessor;
    - [Dom]: the links and labels of the nodes of a document, which the
      tree searches read;
    - [DomUtils]: the tree searches and the class-, dataset- and
      style-backed accessors.

    The platform objects behave as the platform makes them: the class list
    rejects tokens that are empty or hold white space, the inline style
    declaration drops a value it does not accept for a property and reads
    as [undefined] at a name it does not know, the dataset stores strings.
    Which names are CSS properties and which values they take is a
    parameter ([Css]), as are the computed style ([Window]), the layout
    ([Layout]) and the name predicates ([StringUtils]).  Strings are byte
    strings, which covers the names and values the library handles. *)

From Stdlib Require Import ZArith NArith Ascii String List Lia.
From stdpp Require Import base decidable option list gmap strings.

Local Open Scope Z_scope.

(** ** The JavaScript fragment *)

Module Js.

(** Values that reach the library.  Numbers are the integer-valued ones and
    [NaN]; an integer is held by its mathematical value.  The numbers of the
    language are binary64: every integer up to [2^53] in absolute value is
    one, and above that only some are.  There is one zero: the negative
    zero of the language, which [===] does not tell from zero, is not kept
    apart; and there is no infinity, the integers met staying far below the
    largest binary64 number. *)
Inductive Value :=
| Undefined
| Boolean (b : bool)
| Str (s : string)
| Number (z : Z)
| NaN.

Inductive Exception :=
| IllegalArgumentException (message : string)
| TypeError (message : string)
| DOMException (name : string).

(** The outcome of running a function body. *)
Inductive Completion (A : Type) :=
| Normal (a : A)
| Throw (e : Exception).
Arguments Normal {A} a.
Arguments Throw {A} e.

Definition isIllegalArgument {A} (c : Completion A) : bool :=
  match c with
  | Throw (IllegalArgumentException _) => true
  | _ => false
  end.

(** *** Decimal digits *)

Definition digitChar (d : N) : ascii := ascii_of_N (48 + d).

Definition digitValue (c : ascii) : option N :=
  let n := N_of_ascii c in
  if ((48 <=? n) && (n <=? 57))%N then Some (n - 48)%N else None.

(** Most significant digit first; [fuel] bounds the number of digits. *)
Fixpoint digitsOf (fuel : nat) (n : N) (acc : list N) : list N :=
  match fuel with
  | O => acc
  | S fuel' =>
      let acc' := (n mod 10)%N :: acc in
      if (n / 10 =? 0)%N then acc' else digitsOf fuel' (n / 10)%N acc'
  end.

Definition decimalDigits (n : N) : list N :=
  digitsOf (S (N.to_nat (N.log2 n))) n [].

Definition digitString (ds : list N) : string :=
  string_of_list_ascii (map digitChar ds).

Fixpoint stripLeadingZeros (ds : list N) : list N :=
  match ds with
  | 0%N :: ds' => stripLeadingZeros ds'
  | _ => ds
  end.

Definition stripTrailingZeros (ds : list N) : list N :=
  rev (stripLeadingZeros (rev ds)).

(** *** Number::toString (radix 10) on a non-negative integer

    With [n] the number of digits and [s] the digits without the trailing
    zeros ([k] of them): decimal notation while [n <= 21], that is below
    [10^21]; otherwise exponential notation, [d e+(n-1)] when [k = 1] and
    [d.ddd e+(n-1)] when [k > 1].  The digits are those of the integer
    itself, which is what the language prints for every integer up to
    [2^53] and for every integer-valued number whose digits without the
    trailing zeros are at most fifteen, such as [10^21].  For the other
    numbers above [2^53] the language prints the shortest digits that
    identify the number and pads them with zeros, a string that differs
    from this one and reads back as the same number. *)
Definition naturalToString (n : N) : string :=
  let ds := decimalDigits n in
  if (n <? 10 ^ 21)%N then digitString ds
  else
    let e := digitString (decimalDigits (N.of_nat (length ds - 1))) in
    match stripTrailingZeros ds with
    | [d] => digitString [d] +:+ "e+" +:+ e
    | d :: rest => digitString [d] +:+ "." +:+ digitString rest +:+ "e+" +:+ e
    | [] => "0"
    end.

Definition numberToString (z : Z) : string :=
  if z <? 0 then "-" +:+ naturalToString (Z.to_N (- z))
  else naturalToString (Z.to_N z).

(** ToString. *)
Definition toString (v : Value) : string :=
  match v with
  | Undefined => "undefined"
  | Boolean true => "true"
  | Boolean false => "false"
  | Str s => s
  | Number z => numberToString z
  | NaN => "NaN"
  end.

(** [value + 'px']: with a string on the right, [+] concatenates. *)
Definition add (v : Value) (s : string) : string := toString v +:+ s.

(** [value === undefined] and [value === ''] *)
Definition isUndefined (v : Value) : bool :=
  match v with Undefined => true | _ => false end.

Definition isEmptyString (v : Value) : bool :=
  match v with Str EmptyString => true | _ => false end.

(** *** String.prototype.substring

    Both indices are clamped to [0 .. length] and swapped when out of
    order. *)
Definition clamp (len i : Z) : Z := Z.min (Z.max i 0) len.

Definition substring (s : string) (start finish : Z) : string :=
  let len := Z.of_nat (String.length s) in
  let a := clamp len start in
  let b := clamp len finish in
  let from := Z.min a b in
  let to := Z.max a b in
  String.substring (Z.to_nat from) (Z.to_nat (to - from)) s.

(** *** parseInt(string, 10)

    The result is the integer the digits spell.  The language gives the
    binary64 number nearest to it, which is that integer up to [2^53]; what
    is stated about values read by [parseInt] stays within that range, or
    is about a string printed from a number, which reads back as that
    number. *)

Definition isWhiteSpace (c : ascii) : bool :=
  let n := N_of_ascii c in
  ((n =? 32) || ((9 <=? n) && (n <=? 13)))%N.

Fixpoint trimStart (s : string) : string :=
  match s with
  | String c s' => if isWhiteSpace c then trimStart s' else s
  | EmptyString => s
  end.

(** The longest prefix made of radix-10 digits. *)
Fixpoint digitPrefix (s : string) : list N :=
  match s with
  | String c s' =>
      match digitValue c with
      | Some d => d :: digitPrefix s'
      | None => []
      end
  | EmptyString => []
  end.

Definition mathInt (ds : list N) : N :=
  fold_left (fun acc d => (10 * acc + d)%N) ds 0%N.

Definition parseInt (s : string) : Value :=
  let s1 := trimStart s in
  let '(sign, s2) :=
    match s1 with
    | String "-" rest => (-1, rest)
    | String "+" rest => (1, rest)
    | _ => (1, s1)
    end in
  match digitPrefix s2 with
  | [] => NaN
  | ds => Number (sign * Z.of_N (mathInt ds))
  end.

(** *** The operator [+]

    With a string on either side it concatenates; otherwise it adds the
    operands as numbers and rounds the sum to binary64, [undefined] and
    [NaN] giving [NaN]. *)
Definition toNumber (v : Value) : option Z :=
  match v with
  | Number z => Some z
  | Boolean true => Some 1
  | Boolean false => Some 0
  | _ => None
  end.

(** The binary64 number nearest to an integer, ties to the even
    significand of 53 bits. *)
Definition roundToDouble (z : Z) : Z :=
  let a := Z.abs z in
  if a <=? 2 ^ 53 then z
  else
    let e := Z.log2 a - 52 in
    let q := a / 2 ^ e in
    let r := a mod 2 ^ e in
    let q' :=
      if 2 * r <? 2 ^ e then q
      else if 2 * r =? 2 ^ e then (if Z.even q then q else q + 1)
      else q + 1 in
    Z.sgn z * (q' * 2 ^ e).

Definition plus (a b : Value) : Value :=
  match a, b with
  | Str _, _ | _, Str _ => Str (toString a +:+ toString b)
  | _, _ =>
      match toNumber a, toNumber b with
      | Some x, Some y => Number (roundToDouble (x + y))
      | _, _ => NaN
      end
  end.

End Js.

(** ** Collaborators outside the repository *)

(** [StringUtils] of the [jsstringutils] package: the two name-format
    predicates the sources call.  Their code is not part of the
    repository, so the development is parametric in them. *)
Class StringUtils := {
  isDashCase : string -> bool;
  isCamelCase : string -> bool
}.

(** ** The state of one element *)

(** [classList] is the platform's token set, [dataset] its string-keyed
    attribute store, [style] what the inline style declaration holds: the
    values of the CSS properties that are set and whatever was assigned to
    other names.  All three hold strings only: the platform converts
    whatever is assigned with ToString. *)
Record Element := {
  classList : gset string;
  dataset : gmap string string;
  style : gmap string string
}.

(** [window.getComputedStyle(element)]: a live view, so a function of the
    current state of the element; [getPropertyValue] applies it to a
    property name and yields the empty string when there is no value. *)
Class Window := {
  getComputedStyle : Element -> string -> string
}.

(** The platform's style declaration [element.style].  [isProperty name]
    says that the declaration has the CSS property [name] as an attribute
    (in dashed or in camel-case form); [parseValue name text] is what the
    declaration holds for that property once the non-empty string [text]
    was assigned to it: [Some] of the value as the platform writes it back,
    or [None] when the platform does not take [text] as a value of the
    property, an assignment it drops without an error.  The empty string
    removes the value. *)
Class Css := {
  isProperty : string -> bool;
  parseValue : string -> string -> option string
}.

(** [element.offsetHeight] and [element.offsetWidth]: integers the
    platform's layout reports for the element. *)
Class Layout := {
  offsetHeight : Element -> Z;
  offsetWidth : Element -> Z
}.

(** Statements run against the element they were given and either complete
    normally or throw. *)
Definition M (A : Type) : Type := Element -> Js.Completion A * Element.

#[global] Instance M_ret : MRet M := fun A a e => (Js.Normal a, e).

#[global] Instance M_bind : MBind M := fun A B f m e =>
  match m e with
  | (Js.Normal a, e') => f a e'
  | (Js.Throw x, e') => (Js.Throw x, e')
  end.

Definition throw {A} (x : Js.Exception) : M A := fun e => (Js.Throw x, e).

Definition gets {A} (f : Element -> A) : M A := fun e => (Js.Normal (f e), e).

Definition modify (f : Element -> Element) : M unit :=
  fun e => (Js.Normal tt, f e).

(** [for (let x of xs) body] *)
Fixpoint for_of {A} (xs : list A) (body : A -> M unit) : M unit :=
  match xs with
  | [] => mret tt
  | x :: xs' => body x ;; for_of xs' body
  end.

(** *** Platform operations on the element *)

(** [classList.add] and [classList.remove] reject a token that is empty
    (SyntaxError) or holds ASCII white space (InvalidCharacterError);
    [classList.contains] takes any string. *)
Module classList_.
Definition isAsciiWhitespace (c : ascii) : bool :=
  let n := N_of_ascii c in
  ((n =? 9) || (n =? 10) || (n =? 12) || (n =? 13) || (n =? 32))%N.

Definition tokenError (token : string) : option Js.Exception :=
  if bool_decide (token = EmptyString) then
    Some (Js.DOMException "SyntaxError")
  else if existsb isAsciiWhitespace (list_ascii_of_string token) then
    Some (Js.DOMException "InvalidCharacterError")
  else None.

Definition contains (name : string) : M bool :=
  gets (fun e => bool_decide (name ∈ classList e)).

Definition add (name : string) : M unit :=
  match tokenError name with
  | Some x => throw x
  | None =>
      modify (fun e => {| classList := {[name]} ∪ classList e;
                          dataset := dataset e; style := style e |})
  end.

Definition remove (name : string) : M unit :=
  match tokenError name with
  | Some x => throw x
  | None =>
      modify (fun e => {| classList := classList e ∖ {[name]};
                          dataset := dataset e; style := style e |})
  end.
End classList_.

Module dataset_.
(** [element.dataset[name]]: [None] is [undefined]. *)
Definition get (name : string) : M (option string) :=
  gets (fun e => dataset e !! name).

(** [element.dataset[name] = value] *)
Definition set (name : string) (value : Js.Value) : M unit :=
  modify (fun e => {| classList := classList e;
                      dataset := <[name := Js.toString value]> (dataset e);
                      style := style e |}).
End dataset_.

Module style_.
Section style_.
Context `{Css}.

(** [element.style[name]]: for a CSS property the value that is set, the
    empty string when none is; for another name the string that was
    assigned to it, [None] when there is no string to read ([undefined],
    or a value that is not a string). *)
Definition get (name : string) : M (option string) :=
  gets (fun e =>
    if isProperty name then Some (default EmptyString (style e !! name))
    else style e !! name).

(** [element.style[name] = value]: a CSS property takes the string form
    of the value; another name keeps the value itself. *)
Definition set (name : string) (value : Js.Value) : M unit :=
  modify (fun e =>
    let text := Js.toString value in
    {| classList := classList e;
       dataset := dataset e;
       style :=
         if isProperty name then
           if bool_decide (text = EmptyString) then delete name (style e)
           else
             match parseValue name text with
             | Some stored => <[name := stored]> (style e)
             | None => style e
             end
         else
           match value with
           | Js.Str text => <[name := text]> (style e)
           | _ => delete name (style e)
           end |}).

End style_.
End style_.

(** ** computesize.js *)

Module ComputeSize.

Definition dashCaseExpected : Js.Exception :=
  Js.IllegalArgumentException "Style name should be dash-case.".

Section ComputeSize.
Context `{StringUtils} `{Window} `{Css}.

Definition getValue (name : string) : M string :=
  if negb (isDashCase name) then
    throw dashCaseExpected
  else
    gets (fun e => getComputedStyle e name).

Definition setValue (name : string) (value : Js.Value) : M unit :=
  if negb (isDashCase name) then
    throw dashCaseExpected
  else
    let value := if Js.isUndefined value then Js.Str EmptyString else value in
    style_.set name value.

Definition getPixelValue (name : string) : M Js.Value :=
  pixel ← getValue name;
  mret (Js.parseInt
          (Js.substring pixel 0 (Z.of_nat (String.length pixel) - 2))).

Definition setPixelValue (name : string) (value : Js.Value) : M unit :=
  if Js.isUndefined value || Js.isEmptyString value then
    setValue name (Js.Str EmptyString)
  else
    let pixel := Js.add value "px" in
    setValue name (Js.Str pixel).

(** The accessor pairs: [getPixelValue] and [setPixelValue] at a fixed
    name. *)
Definition get_left : M Js.Value := getPixelValue "left".
Definition set_left (value : Js.Value) : M unit :=
  setPixelValue "left" value.
Definition get_top : M Js.Value := getPixelValue "top".
Definition set_top (value : Js.Value) : M unit :=
  setPixelValue "top" value.
Definition get_right : M Js.Value := getPixelValue "right".
Definition set_right (value : Js.Value) : M unit :=
  setPixelValue "right" value.
Definition get_bottom : M Js.Value := getPixelValue "bottom".
Definition set_bottom (value : Js.Value) : M unit :=
  setPixelValue "bottom" value.
Definition get_marginLeft : M Js.Value := getPixelValue "margin-left".
Definition set_marginLeft (value : Js.Value) : M unit :=
  setPixelValue "margin-left" value.
Definition get_marginTop : M Js.Value := getPixelValue "margin-top".
Definition set_marginTop (value : Js.Value) : M unit :=
  setPixelValue "margin-top" value.
Definition get_marginRight : M Js.Value := getPixelValue "margin-right".
Definition set_marginRight (value : Js.Value) : M unit :=
  setPixelValue "margin-right" value.
Definition get_marginBottom : M Js.Value := getPixelValue "margin-bottom".
Definition set_marginBottom (value : Js.Value) : M unit :=
  setPixelValue "margin-bottom" value.
Definition get_paddingLeft : M Js.Value := getPixelValue "padding-left".
Definition set_paddingLeft (value : Js.Value) : M unit :=
  setPixelValue "padding-left" value.
Definition get_paddingTop : M Js.Value := getPixelValue "padding-top".
Definition set_paddingTop (value : Js.Value) : M unit :=
  setPixelValue "padding-top" value.
Definition get_paddingRight : M Js.Value := getPixelValue "padding-right".
Definition set_paddingRight (value : Js.Value) : M unit :=
  setPixelValue "padding-right" value.
Definition get_paddingBottom : M Js.Value := getPixelValue "padding-bottom".
Definition set_paddingBottom (value : Js.Value) : M unit :=
  setPixelValue "padding-bottom" value.
Definition get_height : M Js.Value := getPixelValue "height".
Definition set_height (value : Js.Value) : M unit :=
  setPixelValue "height" value.
Definition get_width : M Js.Value := getPixelValue "width".
Definition set_width (value : Js.Value) : M unit :=
  setPixelValue "width" value.

End ComputeSize.
End ComputeSize.

(** ** The second ComputeSize source (src/unnamed/part_000)

    Its accessor pairs are the same fourteen, over its own
    [getPixelValue] and [setPixelValue]. *)

Module ComputeSize_part_000.
Section ComputeSize.
Context `{Window} `{Css}.

Definition getValue (name : string) : M string :=
  gets (fun e => getComputedStyle e name).

Definition setValue (name : string) (value : Js.Value) : M unit :=
  let value := if Js.isUndefined value then Js.Str EmptyString else value in
  style_.set name value.

Definition getPixelValue (name : string) : M Js.Value :=
  pixel ← getValue name;
  mret (Js.parseInt
          (Js.substring pixel 0 (Z.of_nat (String.length pixel) - 2))).

Definition setPixelValue (name : string) (value : Js.Value) : M unit :=
  if Js.isUndefined value || Js.isEmptyString value then
    setValue name (Js.Str EmptyString)
  else
    let pixel := Js.add value "px" in
    setValue name (Js.Str pixel).

End ComputeSize.
End ComputeSize_part_000.

(** ** domutils.js: the tree the searches walk *)

Module Dom.
(** What the searches read of a node: its links, its kind, its tag
    ([None] where a node has no [tagName], as a text node) and its class
    list.  [null] links are [None]. *)
Record t (node : Type) := {
  parentNode : node -> option node;
  previousSibling : node -> option node;
  nodeType : node -> Z;
  tagName : node -> option string;
  classList : node -> gset string
}.
Arguments parentNode {node} _ _.
Arguments previousSibling {node} _ _.
Arguments nodeType {node} _ _.
Arguments tagName {node} _ _.
Arguments classList {node} _ _.

(** [Node.ELEMENT_NODE] *)
Definition ELEMENT_NODE : Z := 1.

(** A tree has a document order: a parent and a previous sibling both come
    before the node. *)
Definition documentOrder {node} (d : t node) (pos : node -> nat) : Prop :=
  (forall n p, parentNode d n = Some p -> (pos p < pos n)%nat) /\
  (forall n s, previousSibling d n = Some s -> (pos s < pos n)%nat).
End Dom.

(** ** domutils.js *)

Module DomUtils.

Definition containsClassName (classList : gset string) (className : string)
  : bool :=
  bool_decide (className ∈ classList).

Definition containsAllClassNames (classList : gset string)
    (classNames : list string) : bool :=
  let clazzs := elements classList in
  forallb (fun item => bool_decide (item ∈ clazzs)) classNames.

Section TreeSearch.
Context {node : Type} `{EqDecision node} (d : Dom.t node).

(** A search runs its loop at most [fuel] times: [None] is a loop that is
    still running when the bound is reached, [Some c] the completion of the
    call, where [Js.Normal None] is the [undefined] of a search that found
    nothing. *)
Definition Search : Type := option (Js.Completion (option node)).

(** The loop condition
    [element !== null && element !== topElement && element.tagName !== 'BODY']
    at a node. *)
Definition inside (topElement : option node) (element : node) : bool :=
  bool_decide (Some element <> topElement)
  && bool_decide (Dom.tagName d element <> Some "BODY"%string).

(** The chain of tests on [className] and [tagName], the same in the
    three searches that take both. *)
Definition matches (className tagName : option string) (element : node)
  : bool :=
  match className, tagName with
  | Some c, Some t =>
      containsClassName (Dom.classList d element) c
      && bool_decide (Dom.tagName d element = Some t)
  | Some c, None => containsClassName (Dom.classList d element) c
  | None, Some t => bool_decide (Dom.tagName d element = Some t)
  | None, None => false
  end.

Definition isElement (element : node) : bool :=
  bool_decide (Dom.nodeType d element = Dom.ELEMENT_NODE).

(** Reading a property of [null] throws. *)
Definition nullDereference : Js.Exception :=
  Js.TypeError "Cannot read properties of null".

Fixpoint findElementAndParent_loop (fuel : nat)
    (className tagName : option string) (topElement : option node)
    (element : option node) : Search :=
  match fuel with
  | O => None
  | S fuel' =>
      match element with
      | Some e =>
          if inside topElement e then
            if isElement e && matches className tagName e
            then Some (Js.Normal (Some e))
            else findElementAndParent_loop fuel' className tagName topElement
                   (Dom.parentNode d e)
          else Some (Js.Normal None)
      | None => Some (Js.Normal None)
      end
  end.

Definition findElementAndParent (fuel : nat) (node0 : node)
    (className tagName : option string) (topElement : option node) : Search :=
  findElementAndParent_loop fuel className tagName topElement (Some node0).

Fixpoint findParentElement_loop (fuel : nat)
    (className tagName : option string) (topElement : option node)
    (element : option node) : Search :=
  match fuel with
  | O => None
  | S fuel' =>
      match element with
      | Some e =>
          if inside topElement e then
            match Dom.parentNode d e with
            | None => Some (Js.Throw nullDereference)
            | Some e' =>
                if isElement e' && matches className tagName e'
                then Some (Js.Normal (Some e'))
                else findParentElement_loop fuel' className tagName topElement
                       (Some e')
            end
          else Some (Js.Normal None)
      | None => Some (Js.Normal None)
      end
  end.

Definition findParentElement (fuel : nat) (node0 : node)
    (className tagName : option string) (topElement : option node) : Search :=
  findParentElement_loop fuel className tagName topElement (Some node0).

(** [previousElement === null ? element.parentNode : previousElement] *)
Definition previousOrParent (element : node) : option node :=
  match Dom.previousSibling d element with
  | None => Dom.parentNode d element
  | Some previousElement => Some previousElement
  end.

Fixpoint findPreviousElementAndParent_loop (fuel : nat)
    (className tagName : option string) (topElement : option node)
    (element : option node) : Search :=
  match fuel with
  | O => None
  | S fuel' =>
      match element with
      | Some e =>
          if inside topElement e then
            match previousOrParent e with
            | None => Some (Js.Throw nullDereference)
            | Some e' =>
                if isElement e' && matches className tagName e'
                then Some (Js.Normal (Some e'))
                else findPreviousElementAndParent_loop fuel' className tagName
                       topElement (Some e')
            end
          else Some (Js.Normal None)
      | None => Some (Js.Normal None)
      end
  end.

Definition findPreviousElementAndParent (fuel : nat) (node0 : node)
    (className tagName : option string) (topElement : option node) : Search :=
  findPreviousElementAndParent_loop fuel className tagName topElement
    (Some node0).

Fixpoint findPreviousElementAndParentByClassNames_loop (fuel : nat)
    (classNames : list string) (topElement : option node)
    (element : option node) : Search :=
  match fuel with
  | O => None
  | S fuel' =>
      match element with
      | Some e =>
          if inside topElement e then
            match previousOrParent e with
            | None => Some (Js.Throw nullDereference)
            | Some e' =>
                if isElement e'
                   && containsAllClassNames (Dom.classList d e') classNames
                then Some (Js.Normal (Some e'))
                else findPreviousElementAndParentByClassNames_loop fuel'
                       classNames topElement (Some e')
            end
          else Some (Js.Normal None)
      | None => Some (Js.Normal None)
      end
  end.

Definition findPreviousElementAndParentByClassNames (fuel : nat)
    (node0 : node) (classNames : list string) (topElement : option node)
  : Search :=
  findPreviousElementAndParentByClassNames_loop fuel classNames topElement
    (Some node0).

(** The shape shared by the three searches that move before they test:
    [next] is the move, [test] the predicate on the node moved to. *)
Fixpoint moveThenTest (next : node -> option node) (test : node -> bool)
    (fuel : nat) (topElement : option node) (element : option node)
  : Search :=
  match fuel with
  | O => None
  | S fuel' =>
      match element with
      | Some e =>
          if inside topElement e then
            match next e with
            | None => Some (Js.Throw nullDereference)
            | Some e' =>
                if test e' then Some (Js.Normal (Some e'))
                else moveThenTest next test fuel' topElement (Some e')
            end
          else Some (Js.Normal None)
      | None => Some (Js.Normal None)
      end
  end.

(** The node reached from [n] by [k] moves, when all of them are there. *)
Fixpoint steps (next : node -> option node) (k : nat) (n : node)
  : option node :=
  match k with
  | O => Some n
  | S k' =>
      match next n with
      | Some m => steps next k' m
      | None => None
      end
  end.

(** The nodes a search that moves first goes through before it reaches
    the [k+1]-th: the start node and the [k] after it satisfy the loop
    condition, and these [k] fail the test. *)
Definition passed (next : node -> option node) (test : node -> bool)
    (topElement : option node) (k : nat) (e : node) : Prop :=
  forall j, (j <= k)%nat ->
    exists a, steps next j e = Some a /\
              inside topElement a = true /\
              ((1 <= j)%nat -> test a = false).

(** The nodes that lie at or under a node where the loop condition
    fails: the stop node or an element tagged [BODY]. *)
Definition underBoundary (topElement : option node) (e : node) : Prop :=
  exists k b, steps (Dom.parentNode d) k e = Some b /\
              inside topElement b = false.

(** The nodes [findElementAndParent] goes through before it reaches the
    [k]-th: the first [k] nodes satisfy the loop condition and fail the
    test. *)
Definition rejected (next : node -> option node) (test : node -> bool)
    (topElement : option node) (k : nat) (e : node) : Prop :=
  forall j, (j < k)%nat ->
    exists a, steps next j e = Some a /\
              inside topElement a = true /\ test a = false.

End TreeSearch.

Section Accessors.
Context `{StringUtils} `{Css}.

Definition setBooleanByClass (name : string) (booleanValue : Js.Value)
  : M unit :=
  match booleanValue with
  | Js.Boolean true => classList_.add name
  | _ => classList_.remove name
  end.

Definition getBooleanByClass (name : string) : M bool :=
  classList_.contains name.

Definition doubleQuote : string := String "034"%char EmptyString.

Definition setOptionByClass (options : list string) (optionValue : string)
  : M unit :=
  if negb (bool_decide (optionValue ∈ options)) then
    throw (Js.IllegalArgumentException
             ("The value " +:+ doubleQuote +:+ optionValue +:+ doubleQuote
              +:+ " is not one value of [" +:+ String.concat "," options
              +:+ "]."))
  else
    for_of options (fun option =>
      if bool_decide (optionValue = option)
      then classList_.add option
      else classList_.remove option).

(** The [for ... of] with a [return] inside; [None] is [undefined]. *)
Fixpoint getOptionByClass (options : list string) : M (option string) :=
  match options with
  | [] => mret None
  | option :: options' =>
      present ← classList_.contains option;
      if (present : bool) then mret (Some option)
      else getOptionByClass options'
  end.

Definition camelCaseExpected : Js.Exception :=
  Js.IllegalArgumentException "The dataset name should be in camel case.".

Definition setStringInDataset (name : string) (stringValue : Js.Value)
  : M unit :=
  if negb (isCamelCase name) then throw camelCaseExpected
  else dataset_.set name stringValue.

Definition getStringInDataset (name : string) : M Js.Value :=
  value ← dataset_.get name;
  mret (match value with Some s => Js.Str s | None => Js.Undefined end).

Definition setIntegerInDataset (name : string) (integerValue : Js.Value)
  : M unit :=
  if negb (isCamelCase name) then throw camelCaseExpected
  else dataset_.set name integerValue.

Definition getIntegerInDataset (name : string) : M Js.Value :=
  value ← dataset_.get name;
  match value with
  | Some value => mret (Js.parseInt value)
  | None => mret Js.Undefined
  end.

Definition setBooleanInDataset (name : string) (booleanValue : Js.Value)
  : M unit :=
  if negb (isCamelCase name) then throw camelCaseExpected
  else dataset_.set name booleanValue.

Definition getBooleanInDataset (name : string) : M bool :=
  value ← dataset_.get name;
  mret (bool_decide (value = Some "true"%string)).

Definition setPixelValueInStyle (name : string) (pixelValue : Js.Value)
  : M unit :=
  if Js.isUndefined pixelValue || Js.isEmptyString pixelValue then
    style_.set name (Js.Str EmptyString)
  else
    style_.set name (Js.Str (Js.add pixelValue "px")).

(** Where [element.style[name]] is not a string, [value.substring]
    throws. *)
Definition notAString : Js.Exception :=
  Js.TypeError "Cannot read properties of undefined".

Definition getPixelValueInStyle (name : string) : M Js.Value :=
  value ← style_.get name;
  if bool_decide (value = Some EmptyString) then mret Js.Undefined
  else
    match value with
    | Some value =>
        let integer :=
          Js.substring value 0 (Z.of_nat (String.length value) - 2) in
        mret (Js.parseInt integer)
    | None => throw notAString
    end.

End Accessors.

Section OuterSize.
Context `{StringUtils} `{Window} `{Layout}.

(** [getComputeSize(element)] builds the accessor over the element and the
    live computed style, which here is the element the statements run
    against; the margins are read through its getters. *)
Definition getOuterHeight : M Js.Value :=
  height ← gets offsetHeight;
  marginTop ← ComputeSize.get_marginTop;
  marginBottom ← ComputeSize.get_marginBottom;
  mret (Js.plus (Js.plus (Js.Number height) marginTop) marginBottom).

Definition getOuterHeightByComputeSize : M Js.Value :=
  height ← gets offsetHeight;
  marginTop ← ComputeSize.get_marginTop;
  marginBottom ← ComputeSize.get_marginBottom;
  mret (Js.plus (Js.plus (Js.Number height) marginTop) marginBottom).

Definition getOuterWidth : M Js.Value :=
  width ← gets offsetWidth;
  marginLeft ← ComputeSize.get_marginLeft;
  marginRight ← ComputeSize.get_marginRight;
  mret (Js.plus (Js.plus (Js.Number width) marginLeft) marginRight).

Definition getOuterWidthByComputeSize : M Js.Value :=
  width ← gets offsetWidth;
  marginLeft ← ComputeSize.get_marginLeft;
  marginRight ← ComputeSize.get_marginRight;
  mret (Js.plus (Js.plus (Js.Number width) marginLeft) marginRight).

End OuterSize.
End DomUtils.

(** ** Concrete collaborators and a concrete document

    Used to run the definitions on examples. *)

Module Sample.

Definition isLower (c : ascii) : bool :=
  let n := N_of_ascii c in ((97 <=? n) && (n <=? 122))%N.
Definition isUpper (c : ascii) : bool :=
  let n := N_of_ascii c in ((65 <=? n) && (n <=? 90))%N.
Definition isDigit (c : ascii) : bool :=
  let n := N_of_ascii c in ((48 <=? n) && (n <=? 57))%N.

Definition startsLower (s : string) : bool :=
  match s with
  | String c _ => isLower c
  | EmptyString => false
  end.

(** Modelled from the spec: [StringUtils.isDashCase] and
    [StringUtils.isCamelCase] belong to the [jsstringutils] package, which
    is missing from the sources.  The spec's glossary describes dash-case
    as the identifier style using hyphens ([margin-left]) and camel case as
    the style with no separators and internal capitalization
    ([marginLeft]): lower-case words joined by hyphens, and letters and
    digits after a lower-case first letter. *)
Definition dashCase (s : string) : bool :=
  startsLower s
  && forallb (fun c => isLower c || isDigit c || bool_decide (c = "-"%char))
       (list_ascii_of_string s).

Definition camelCase (s : string) : bool :=
  startsLower s
  && forallb (fun c => isLower c || isUpper c || isDigit c)
       (list_ascii_of_string s).

Definition stringUtils : StringUtils :=
  {| isDashCase := dashCase; isCamelCase := camelCase |}.

(** A platform that resolves a property to its inline value when there is
    one, and to a default otherwise. *)
Definition window : Window :=
  {| getComputedStyle := fun e name =>
       match style e !! name with
       | Some (String c s) => String c s
       | _ =>
           if bool_decide (name = "margin-left"%string) then "0px"
           else if bool_decide (name = "font-size"%string) then "1.5em"
           else if bool_decide (name = "line-height"%string) then "150%"
           else "auto"
       end%string |}.

Definition blank : Element :=
  {| classList := ∅; dataset := ∅; style := ∅ |}.

(** A style declaration with the pixel properties of the accessor, in
    dashed and in camel-case form, and [z-index].  The offsets and the
    margins take [<integer>px], the paddings, [height] and [width] take it
    without a sign, [z-index] takes an integer. *)
Definition signedLengths : list string :=
  ["left"; "top"; "right"; "bottom";
   "margin-left"; "margin-top"; "margin-right"; "margin-bottom";
   "marginLeft"; "marginTop"; "marginRight"; "marginBottom"]%string.

Definition unsignedLengths : list string :=
  ["padding-left"; "padding-top"; "padding-right"; "padding-bottom";
   "paddingLeft"; "paddingTop"; "paddingRight"; "paddingBottom";
   "height"; "width"]%string.

Definition integers : list string := ["z-index"; "zIndex"]%string.

Definition isDigits (l : list ascii) : bool :=
  negb (bool_decide (l = [])) && forallb isDigit l.

Definition isInteger (signed : bool) (l : list ascii) : bool :=
  match l with
  | "-"%char :: l' => signed && isDigits l'
  | _ => isDigits l
  end.

Definition isPixels (signed : bool) (l : list ascii) : bool :=
  match rev l with
  | "x"%char :: "p"%char :: l' => isInteger signed (rev l')
  | _ => false
  end.

Definition css : Css :=
  {| isProperty := fun name =>
       bool_decide (name ∈ signedLengths ++ unsignedLengths ++ integers);
     parseValue := fun name value =>
       let l := list_ascii_of_string value in
       let taken :=
         if bool_decide (name ∈ signedLengths) then isPixels true l
         else if bool_decide (name ∈ unsignedLengths) then isPixels false l
         else if bool_decide (name ∈ integers) then isInteger true l
         else false in
       if taken then Some value else None |}.

(** A layout that reports a box of 100 by 40 for every element. *)
Definition layout : Layout :=
  {| offsetHeight := fun _ => 100; offsetWidth := fun _ => 40 |}.

(** The document
<<
    #document
      HTML
        BODY
          DIV#top
            DIV.x
              SPAN#start
            "text"
            DIV#list
              DIV.a  DIV.b  DIV.c
>>
    and one element that is attached to nothing. *)
Inductive node :=
| document | html | body | top | divX | start | text | list_
| divA | divB | divC | orphan.

#[global] Instance node_eq_dec : EqDecision node.
Proof. solve_decision. Defined.

Definition dom : Dom.t node :=
  {| Dom.parentNode := fun n =>
       match n with
       | document | orphan => None
       | html => Some document
       | body => Some html
       | top => Some body
       | divX | text | list_ => Some top
       | start => Some divX
       | divA | divB | divC => Some list_
       end;
     Dom.previousSibling := fun n =>
       match n with
       | text => Some divX
       | list_ => Some text
       | divB => Some divA
       | divC => Some divB
       | _ => None
       end;
     Dom.nodeType := fun n =>
       match n with
       | document => 9
       | text => 3
       | _ => Dom.ELEMENT_NODE
       end;
     Dom.tagName := fun n =>
       match n with
       | document | text => None
       | html => Some "HTML"
       | body => Some "BODY"
       | start => Some "SPAN"
       | _ => Some "DIV"
       end%string;
     Dom.classList := fun n =>
       match n with
       | divX | orphan => {["x"]}
       | divA => {["a"]}
       | divB => {["b"]}
       | divC => {["c"]}
       | _ => ∅
       end%string |}.

Definition pos (n : node) : nat :=
  match n with
  | document => 0 | html => 1 | body => 2 | top => 3 | divX => 4
  | start => 5 | text => 6 | list_ => 7 | divA => 8 | divB => 9
  | divC => 10 | orphan => 0
  end.

End Sample.

(** * Properties *)

(** ** Numbers and strings *)

Module JsFacts.
Import Js.

Local Open Scope N_scope.

Lemma digitsOf_acc fuel : forall n acc,
  digitsOf fuel n acc = digitsOf fuel n [] ++ acc.
Proof.
  induction fuel as [|fuel IH]; intros n acc; simpl; [reflexivity|].
  destruct (n / 10 =? 0); [reflexivity|].
  rewrite (IH _ (_ :: acc)), (IH _ [_]), <- app_assoc. reflexivity.
Qed.

Lemma mathInt_snoc ds d : mathInt (ds ++ [d]) = 10 * mathInt ds + d.
Proof. unfold mathInt. rewrite fold_left_app. reflexivity. Qed.

Lemma digitsOf_S fuel n acc :
  digitsOf (S fuel) n acc =
  if n / 10 =? 0 then n mod 10 :: acc
  else digitsOf fuel (n / 10) (n mod 10 :: acc).
Proof. reflexivity. Qed.

Lemma digitsOf_spec fuel : forall n,
  n < 10 ^ N.of_nat (S fuel) ->
  mathInt (digitsOf (S fuel) n []) = n /\
  Forall (fun d => d < 10) (digitsOf (S fuel) n []) /\
  digitsOf (S fuel) n [] <> [].
Proof.
  induction fuel as [|fuel IH]; intros n Hn;
    pose proof (N.mod_lt n 10 ltac:(lia)) as Hmod;
    pose proof (N.div_mod n 10 ltac:(lia)) as Hdiv.
  - assert (Hz : n / 10 = 0) by (apply N.div_small; exact Hn).
    simpl. rewrite Hz. simpl. repeat split.
    + unfold mathInt; simpl. lia.
    + repeat constructor. exact Hmod.
    + discriminate.
  - rewrite (digitsOf_S (S fuel)).
    destruct (N.eqb_spec (n / 10) 0) as [Hz|Hz].
    + repeat split.
      * unfold mathInt; simpl. lia.
      * repeat constructor. exact Hmod.
      * discriminate.
    + rewrite digitsOf_acc.
      assert (Hlt : n / 10 < 10 ^ N.of_nat (S fuel)).
      { apply N.Div0.div_lt_upper_bound.
        rewrite (Nat2N.inj_succ (S fuel)), N.pow_succ_r' in Hn. exact Hn. }
      destruct (IH _ Hlt) as (Hv & Hall & Hne).
      repeat split.
      * rewrite mathInt_snoc, Hv. lia.
      * apply Forall_app. split; [exact Hall|]. repeat constructor. exact Hmod.
      * intros Heq. apply app_eq_nil in Heq. destruct Heq; discriminate.
Qed.

Lemma enough_digits n : n < 10 ^ N.of_nat (S (N.to_nat (N.log2 n))).
Proof.
  rewrite Nat2N.inj_succ, N2Nat.id.
  destruct (N.eq_dec n 0) as [->|Hn]; [reflexivity|].
  destruct (N.log2_spec n ltac:(lia)) as [_ Hup].
  eapply N.lt_le_trans; [exact Hup|].
  apply N.pow_le_mono_l. lia.
Qed.

Lemma decimalDigits_spec n :
  mathInt (decimalDigits n) = n /\
  Forall (fun d => d < 10) (decimalDigits n) /\
  decimalDigits n <> [].
Proof. apply digitsOf_spec, enough_digits. Qed.

Ltac each_digit d :=
  let p := fresh "p" in
  destruct d as [|p];
  [|do 4 (try (destruct p as [p|p|]; try (exfalso; lia)))].

Lemma digitValue_digitChar d : d < 10 -> digitValue (digitChar d) = Some d.
Proof. intros H. each_digit d; reflexivity. Qed.

Lemma digitPrefix_digitString ds :
  Forall (fun d => d < 10) ds -> digitPrefix (digitString ds) = ds.
Proof.
  induction 1 as [|d ds Hd _ IH]; [reflexivity|].
  unfold digitString in *. simpl. rewrite digitValue_digitChar by exact Hd.
  rewrite IH. reflexivity.
Qed.

(** Reading back the decimal digits of a natural number. *)
Lemma parseInt_digitString ds :
  Forall (fun d => d < 10) ds -> ds <> [] ->
  parseInt (digitString ds) = Number (Z.of_N (mathInt ds)) /\
  parseInt ("-" +:+ digitString ds) = Number (- Z.of_N (mathInt ds)).
Proof.
  intros Hall Hne. pose proof (digitPrefix_digitString ds Hall) as Hp.
  destruct ds as [|d ds]; [congruence|].
  assert (Hd : d < 10) by (inversion Hall; assumption).
  split.
  - unfold parseInt.
    replace (trimStart (digitString (d :: ds))) with (digitString (d :: ds))
      by (each_digit d; reflexivity).
    assert (Hsign :
      (match digitString (d :: ds) with
       | String "-" rest => ((-1)%Z, rest)
       | String "+" rest => (1%Z, rest)
       | _ => (1%Z, digitString (d :: ds))
       end) = (1%Z, digitString (d :: ds)))
      by (each_digit d; reflexivity).
    rewrite Hsign. cbv beta iota zeta. rewrite Hp. f_equal; lia.
  - unfold parseInt.
    change (String.append "-" (digitString (d :: ds)))
      with (String "-" (digitString (d :: ds))).
    change (trimStart (String "-" (digitString (d :: ds))))
      with (String "-" (digitString (d :: ds))).
    cbv beta iota zeta. rewrite Hp. f_equal; lia.
Qed.

Lemma naturalToString_small n :
  n < 10 ^ 21 -> naturalToString n = digitString (decimalDigits n).
Proof.
  intros H. unfold naturalToString.
  destruct (N.ltb_spec n (10 ^ 21)); [reflexivity|lia].
Qed.

Lemma parseInt_numberToString (v : Z) :
  (Z.abs v < 10 ^ 21)%Z -> parseInt (numberToString v) = Number v.
Proof.
  intros Hv. unfold numberToString.
  destruct (Z.ltb_spec v 0) as [Hneg|Hpos].
  - rewrite naturalToString_small by lia.
    destruct (decimalDigits_spec (Z.to_N (- v))) as (Hm & Hall & Hne).
    destruct (parseInt_digitString _ Hall Hne) as [_ ->].
    rewrite Hm. f_equal. lia.
  - rewrite naturalToString_small by lia.
    destruct (decimalDigits_spec (Z.to_N v)) as (Hm & Hall & Hne).
    destruct (parseInt_digitString _ Hall Hne) as [-> _].
    rewrite Hm. f_equal. lia.
Qed.

End JsFacts.

(** ** [substring(0, length - 2)] removes the last two characters *)

Module SubstringFacts.

Lemma substring_prefix (s : string) : forall k : nat,
  (k <= String.length s)%nat ->
  exists suffix,
    s = String.substring 0 k s +:+ suffix /\
    String.length suffix = (String.length s - k)%nat.
Proof.
  induction s as [|c s IH]; intros k Hk.
  - exists EmptyString. destruct k; simpl in *; [split; reflexivity|lia].
  - destruct k as [|k].
    + exists (String c s). split; reflexivity.
    + simpl in Hk. destruct (IH k ltac:(lia)) as (suffix & Heq & Hlen).
      exists suffix. split; [|exact Hlen].
      change (String c s = String c (String.substring 0 k s +:+ suffix)).
      f_equal. exact Heq.
Qed.

Lemma substring_to_length_minus_2 (s : string) :
  Js.substring s 0 (Z.of_nat (String.length s) - 2) =
  String.substring 0 (String.length s - 2) s.
Proof.
  unfold Js.substring, Js.clamp.
  set (len := Z.of_nat (String.length s)).
  assert (Hlen : 0 <= len) by lia.
  replace (Z.min (Z.min (Z.max 0 0) len) (Z.min (Z.max (len - 2) 0) len))
    with 0 by lia.
  replace (Z.max (Z.min (Z.max 0 0) len) (Z.min (Z.max (len - 2) 0) len) - 0)
    with (Z.max (len - 2) 0) by lia.
  f_equal. subst len. lia.
Qed.

(** The string read by the pixel getters: [pixel] without its last two
    characters, or the empty string when [pixel] is shorter than that. *)
Lemma substring_drops_two (pixel : string) :
  exists suffix,
    pixel = Js.substring pixel 0 (Z.of_nat (String.length pixel) - 2)
            +:+ suffix /\
    String.length suffix = Nat.min 2 (String.length pixel).
Proof.
  rewrite substring_to_length_minus_2.
  destruct (substring_prefix pixel (String.length pixel - 2) ltac:(lia))
    as (suffix & Heq & Hlen).
  exists suffix. split; [exact Heq|lia].
Qed.

End SubstringFacts.

(** ** Strings that end in a unit *)

Module PixelFacts.

Lemma substring_all_of_prefix (s u : string) :
  String.substring 0 (String.length s) (s +:+ u) = s.
Proof.
  induction s as [|c s IH].
  - destruct u; reflexivity.
  - change (String c (String.substring 0 (String.length s) (s +:+ u))
            = String c s).
    f_equal. exact IH.
Qed.

Lemma length_append (s u : string) :
  String.length (s +:+ u) = (String.length s + String.length u)%nat.
Proof.
  induction s as [|c s IH]; [reflexivity|].
  change (S (String.length (s +:+ u))
          = S (String.length s + String.length u)).
  f_equal. exact IH.
Qed.

(** Cutting the last two characters off a string that ends in a unit of
    two characters leaves what is before the unit. *)
Lemma substring_drops_unit (s unit : string) :
  String.length unit = 2%nat ->
  Js.substring (s +:+ unit) 0 (Z.of_nat (String.length (s +:+ unit)) - 2) = s.
Proof.
  intros Hunit. rewrite SubstringFacts.substring_to_length_minus_2.
  rewrite length_append, Hunit.
  replace (String.length s + 2 - 2)%nat with (String.length s) by lia.
  apply substring_all_of_prefix.
Qed.

(** Cutting the last two characters off a string of at most two
    characters leaves the empty string. *)
Lemma substring_of_short (s : string) :
  (String.length s <= 2)%nat ->
  Js.substring s 0 (Z.of_nat (String.length s) - 2) = EmptyString.
Proof.
  intros Hs. rewrite SubstringFacts.substring_to_length_minus_2.
  replace (String.length s - 2)%nat with 0%nat by lia.
  destruct s; reflexivity.
Qed.


(** [parseInt] yields an integer or [NaN]. *)
Lemma parseInt_number_or_NaN (s : string) :
  Js.parseInt s = Js.NaN \/ exists z, Js.parseInt s = Js.Number z.
Proof.
  unfold Js.parseInt.
  destruct (match Js.trimStart s with
            | String "-" rest => ((-1)%Z, rest)
            | String "+" rest => (1%Z, rest)
            | _ => (1%Z, Js.trimStart s)
            end) as [sign s2].
  destruct (Js.digitPrefix s2); [left; reflexivity|right; eexists; reflexivity].
Qed.

End PixelFacts.

(** ** The element accessors *)

Ltac run :=
  unfold style_.get, style_.set, dataset_.get, dataset_.set,
    classList_.contains, classList_.add, classList_.remove,
    mbind, M_bind, mret, M_ret, throw, gets, modify in *;
  cbn [fst snd classList dataset style] in *.

Section ComputeSizeFacts.
Context `{StringUtils} `{Window} `{Css}.

Lemma getValue_dash name e :
  isDashCase name = true ->
  ComputeSize.getValue name e = (Js.Normal (getComputedStyle e name), e).
Proof. intros Hn. unfold ComputeSize.getValue. rewrite Hn. reflexivity. Qed.

Lemma getValue_not_dash name e :
  isDashCase name = false ->
  ComputeSize.getValue name e =
  (Js.Throw ComputeSize.dashCaseExpected, e).
Proof. intros Hn. unfold ComputeSize.getValue. rewrite Hn. reflexivity. Qed.

Lemma setValue_not_dash name value e :
  isDashCase name = false ->
  ComputeSize.setValue name value e =
  (Js.Throw ComputeSize.dashCaseExpected, e).
Proof. intros Hn. unfold ComputeSize.setValue. rewrite Hn. reflexivity. Qed.

Lemma setValue_dash name value e :
  isDashCase name = true ->
  ComputeSize.setValue name value e =
  ComputeSize_part_000.setValue name value e.
Proof.
  intros Hn. unfold ComputeSize.setValue, ComputeSize_part_000.setValue.
  rewrite Hn. reflexivity.
Qed.

Lemma setPixelValue_dash name value e :
  isDashCase name = true ->
  ComputeSize.setPixelValue name value e =
  ComputeSize_part_000.setPixelValue name value e.
Proof.
  intros Hn.
  unfold ComputeSize.setPixelValue, ComputeSize_part_000.setPixelValue.
  destruct (Js.isUndefined value || Js.isEmptyString value);
    apply setValue_dash; exact Hn.
Qed.

Lemma getPixelValue_dash name e :
  isDashCase name = true ->
  ComputeSize.getPixelValue name e =
  ComputeSize_part_000.getPixelValue name e.
Proof.
  intros Hn.
  unfold ComputeSize.getPixelValue, ComputeSize_part_000.getPixelValue.
  unfold mbind, M_bind. rewrite getValue_dash by exact Hn. reflexivity.
Qed.

End ComputeSizeFacts.




(** C7: for a hyphen-case name, [getPixelValue] never throws and leaves
    the element alone; its result is [parseInt] in base 10 of the computed
    value without its last two characters, whatever these two characters
    are. *)
Theorem getPixelValue_truncates_and_parses `{StringUtils} `{Window}
    (n : string) (e : Element) :
  isDashCase n = true ->
  exists prefix suffix,
    getComputedStyle e n = prefix +:+ suffix /\
    String.length suffix = Nat.min 2 (String.length (getComputedStyle e n)) /\
    ComputeSize.getPixelValue n e = (Js.Normal (Js.parseInt prefix), e).
Proof.
  intros Hn.
  destruct (SubstringFacts.substring_drops_two (getComputedStyle e n))
    as (suffix & Heq & Hlen).
  eexists _, suffix. split; [exact Heq|]. split; [exact Hlen|].
  unfold ComputeSize.getPixelValue, mbind, M_bind.
  rewrite getValue_dash by exact Hn. reflexivity.
Qed.

(** On a platform whose computed [width] is [auto], whose [font-size] is
    [1.5em] and whose [line-height] is [150%], the pixel getter yields
    [NaN], [1] and [15]. *)
Lemma getPixelValue_truncates_and_parses_witness :
  (exists prefix suffix,
     "auto"%string = prefix +:+ suffix /\
     String.length suffix = 2%nat /\
     ComputeSize.getPixelValue (H := Sample.stringUtils)
       (H0 := Sample.window) "width" Sample.blank
     = (Js.Normal (Js.parseInt prefix), Sample.blank)) /\
  ComputeSize.getPixelValue (H := Sample.stringUtils) (H0 := Sample.window)
    "width" Sample.blank = (Js.Normal Js.NaN, Sample.blank) /\
  ComputeSize.getPixelValue (H := Sample.stringUtils) (H0 := Sample.window)
    "font-size" Sample.blank = (Js.Normal (Js.Number 1), Sample.blank) /\
  ComputeSize.getPixelValue (H := Sample.stringUtils) (H0 := Sample.window)
    "line-height" Sample.blank = (Js.Normal (Js.Number 15), Sample.blank).
Proof.
  split; [|repeat split; reflexivity].
  exact (getPixelValue_truncates_and_parses (H := Sample.stringUtils)
           (H0 := Sample.window) "width" Sample.blank ltac:(reflexivity)).
Defined.

(** C10, as stated, fails: on the camelCase name [marginLeft] the accessor
    of computesize.js throws where the one of part_000 returns the computed
    value and writes the inline style. *)
Lemma ComputeSize_versions_differ :
  isDashCase (StringUtils := Sample.stringUtils) "marginLeft" = false /\
  ComputeSize.getValue (H := Sample.stringUtils) (H0 := Sample.window)
    "marginLeft" Sample.blank
  <> ComputeSize_part_000.getValue (H := Sample.window)
       "marginLeft" Sample.blank /\
  fst (ComputeSize.getValue (H := Sample.stringUtils) (H0 := Sample.window)
         "marginLeft" Sample.blank)
  = Js.Throw ComputeSize.dashCaseExpected /\
  fst (ComputeSize_part_000.getValue (H := Sample.window)
         "marginLeft" Sample.blank) = Js.Normal "auto"%string /\
  snd (ComputeSize.setPixelValue (H := Sample.stringUtils)
         (H1 := Sample.css) "marginLeft" (Js.Number 5) Sample.blank)
  = Sample.blank /\
  style (snd (ComputeSize_part_000.setPixelValue (H0 := Sample.css)
                "marginLeft" (Js.Number 5) Sample.blank))
    !! "marginLeft"%string = Some "5px"%string.
Proof.
  repeat split; try reflexivity.
  intros Heq. apply (f_equal fst) in Heq. discriminate Heq.
Qed.

(** C10, amended: on every name [StringUtils.isDashCase] accepts the four
    operations of the two versions coincide, result and state; on every
    other name the four of computesize.js throw IllegalArgument and leave
    the element as it was, while those of part_000 complete normally. *)
Theorem ComputeSize_versions_agree_on_dash_case
    `{StringUtils} `{Window} `{Css}
    (name : string) (value : Js.Value) (e : Element) :
  (isDashCase name = true ->
     ComputeSize.getValue name e = ComputeSize_part_000.getValue name e /\
     ComputeSize.setValue name value e
       = ComputeSize_part_000.setValue name value e /\
     ComputeSize.getPixelValue name e
       = ComputeSize_part_000.getPixelValue name e /\
     ComputeSize.setPixelValue name value e
       = ComputeSize_part_000.setPixelValue name value e) /\
  (isDashCase name = false ->
     ComputeSize.getValue name e
       = (Js.Throw ComputeSize.dashCaseExpected, e) /\
     ComputeSize.setValue name value e
       = (Js.Throw ComputeSize.dashCaseExpected, e) /\
     ComputeSize.getPixelValue name e
       = (Js.Throw ComputeSize.dashCaseExpected, e) /\
     ComputeSize.setPixelValue name value e
       = (Js.Throw ComputeSize.dashCaseExpected, e) /\
     (exists s, ComputeSize_part_000.getValue name e = (Js.Normal s, e)) /\
     (exists e', ComputeSize_part_000.setValue name value e
                 = (Js.Normal tt, e')) /\
     (exists r, ComputeSize_part_000.getPixelValue name e
                = (Js.Normal r, e)) /\
     (exists e', ComputeSize_part_000.setPixelValue name value e
                 = (Js.Normal tt, e'))).
Proof.
  split; intros Hn.
  - split; [|split; [|split]].
    + rewrite getValue_dash by exact Hn. reflexivity.
    + apply setValue_dash, Hn.
    + apply getPixelValue_dash, Hn.
    + apply setPixelValue_dash, Hn.
  - repeat split.
    + apply getValue_not_dash, Hn.
    + apply setValue_not_dash, Hn.
    + unfold ComputeSize.getPixelValue, mbind, M_bind.
      rewrite getValue_not_dash by exact Hn. reflexivity.
    + unfold ComputeSize.setPixelValue.
      destruct (Js.isUndefined value || Js.isEmptyString value);
        apply setValue_not_dash, Hn.
    + eexists. reflexivity.
    + eexists. reflexivity.
    + eexists. reflexivity.
    + unfold ComputeSize_part_000.setPixelValue.
      destruct (Js.isUndefined value || Js.isEmptyString value);
        eexists; reflexivity.
Qed.

Lemma ComputeSize_versions_agree_on_dash_case_witness :
  ComputeSize.setPixelValue (H := Sample.stringUtils) (H1 := Sample.css)
    "margin-left" (Js.Number 5) Sample.blank
  = ComputeSize_part_000.setPixelValue (H0 := Sample.css) "margin-left"
      (Js.Number 5) Sample.blank /\
  ComputeSize.getPixelValue (H := Sample.stringUtils) (H0 := Sample.window)
    "marginLeft" Sample.blank
  = (Js.Throw ComputeSize.dashCaseExpected, Sample.blank).
Proof.
  split.
  - apply (ComputeSize_versions_agree_on_dash_case (H := Sample.stringUtils)
             (H0 := Sample.window) (H1 := Sample.css)
             "margin-left" (Js.Number 5) Sample.blank).
    reflexivity.
  - apply (ComputeSize_versions_agree_on_dash_case (H := Sample.stringUtils)
             (H0 := Sample.window) (H1 := Sample.css)
             "marginLeft" (Js.Number 5) Sample.blank).
    reflexivity.
Defined.

(** ** The accessors of domutils.js *)

(** C6, as stated, fails: [setPixelValueInStyle] and
    [getPixelValueInStyle] accept the camelCase name [marginLeft]. *)
Lemma style_accessors_accept_camelCase :
  isDashCase (StringUtils := Sample.stringUtils) "marginLeft" = false /\
  Js.isIllegalArgument
    (fst (DomUtils.setPixelValueInStyle (H0 := Sample.css) "marginLeft"
            (Js.Number 5) Sample.blank)) = false /\
  (DomUtils.setPixelValueInStyle (H0 := Sample.css) "marginLeft"
     (Js.Number 5) ;;
   DomUtils.getPixelValueInStyle (H0 := Sample.css) "marginLeft")
    Sample.blank
  = (Js.Normal (Js.Number 5),
     snd (DomUtils.setPixelValueInStyle (H0 := Sample.css) "marginLeft"
            (Js.Number 5) Sample.blank)).
Proof. repeat split; vm_compute; reflexivity. Qed.

(** C6, amended: the low-level style accessors of DomUtils do not
    validate the form of the style name: for no name does
    [setPixelValueInStyle] or [getPixelValueInStyle] fail with
    IllegalArgument.  The validation is the one of ComputeSize, whose
    [getValue] and [setValue] fail with IllegalArgument on every name that
    is not dash-case. *)
Theorem style_accessors_do_not_validate `{StringUtils} `{Window} `{Css}
    (name : string) (pixelValue : Js.Value) (e : Element) :
  Js.isIllegalArgument
    (fst (DomUtils.setPixelValueInStyle name pixelValue e)) = false /\
  Js.isIllegalArgument (fst (DomUtils.getPixelValueInStyle name e)) = false /\
  (isDashCase name = false ->
     ComputeSize.getValue name e
       = (Js.Throw ComputeSize.dashCaseExpected, e) /\
     ComputeSize.setValue name pixelValue e
       = (Js.Throw ComputeSize.dashCaseExpected, e)).
Proof.
  split; [|split].
  - unfold DomUtils.setPixelValueInStyle.
    destruct (Js.isUndefined pixelValue || Js.isEmptyString pixelValue);
      reflexivity.
  - unfold DomUtils.getPixelValueInStyle. run.
    destruct (bool_decide _); [reflexivity|].
    destruct (if isProperty name then _ else _); reflexivity.
  - intros Hn. split.
    + apply getValue_not_dash, Hn.
    + apply setValue_not_dash, Hn.
Qed.

Lemma style_accessors_do_not_validate_witness :
  ComputeSize.getValue (H := Sample.stringUtils) (H0 := Sample.window)
    "marginLeft" Sample.blank
  = (Js.Throw ComputeSize.dashCaseExpected, Sample.blank) /\
  ComputeSize.setValue (H := Sample.stringUtils) (H1 := Sample.css)
    "marginLeft" (Js.Number 5) Sample.blank
  = (Js.Throw ComputeSize.dashCaseExpected, Sample.blank).
Proof.
  apply (style_accessors_do_not_validate (H := Sample.stringUtils)
           (H0 := Sample.window) (H1 := Sample.css)
           "marginLeft" (Js.Number 5) Sample.blank).
  reflexivity.
Defined.

(** C8, as stated, fails: the integer [10^21] is stored as the string
    [1e+21] and read back as [1]. *)
Lemma integer_dataset_roundtrip_fails_at_1e21 :
  isCamelCase (StringUtils := Sample.stringUtils) "count" = true /\
  dataset (snd (DomUtils.setIntegerInDataset (H := Sample.stringUtils)
                  "count" (Js.Number (10 ^ 21)) Sample.blank))
    !! "count"%string = Some "1e+21"%string /\
  fst ((DomUtils.setIntegerInDataset (H := Sample.stringUtils) "count"
          (Js.Number (10 ^ 21)) ;;
        DomUtils.getIntegerInDataset "count") Sample.blank)
  = Js.Normal (Js.Number 1) /\
  fst ((DomUtils.setIntegerInDataset (H := Sample.stringUtils) "count"
          (Js.Number (10 ^ 21)) ;;
        DomUtils.getIntegerInDataset "count") Sample.blank)
  <> Js.Normal (Js.Number (10 ^ 21)).
Proof.
  repeat split; try (vm_compute; reflexivity).
  vm_compute. discriminate.
Qed.

(** C8, amended: for every camelCase key [k] and every integer [v] of
    absolute value below [10^21], [setIntegerInDataset(element, k, v)]
    followed by [getIntegerInDataset(element, k)] returns [v]; and on a key
    that is not in the dataset [getIntegerInDataset] returns [undefined]. *)
Theorem integer_dataset_roundtrip `{StringUtils}
    (k : string) (v : Z) (e : Element) :
  (isCamelCase k = true -> Z.abs v < 10 ^ 21 ->
   exists e',
     DomUtils.setIntegerInDataset k (Js.Number v) e = (Js.Normal tt, e') /\
     DomUtils.getIntegerInDataset k e' = (Js.Normal (Js.Number v), e')) /\
  (dataset e !! k = None ->
     DomUtils.getIntegerInDataset k e = (Js.Normal Js.Undefined, e)).
Proof.
  split.
  - intros Hk Hv. unfold DomUtils.setIntegerInDataset. rewrite Hk.
    cbn [negb]. eexists. split; [reflexivity|].
    unfold DomUtils.getIntegerInDataset. run.
    rewrite lookup_insert_eq. cbn [Js.toString].
    rewrite JsFacts.parseInt_numberToString by exact Hv. reflexivity.
  - intros Hnone. unfold DomUtils.getIntegerInDataset. run.
    rewrite Hnone. reflexivity.
Qed.

Lemma integer_dataset_roundtrip_witness :
  (exists e',
     DomUtils.setIntegerInDataset (H := Sample.stringUtils) "count"
       (Js.Number (-42)) Sample.blank = (Js.Normal tt, e') /\
     DomUtils.getIntegerInDataset "count" e'
     = (Js.Normal (Js.Number (-42)), e')) /\
  DomUtils.getIntegerInDataset "count" Sample.blank
  = (Js.Normal Js.Undefined, Sample.blank).
Proof.
  destruct (integer_dataset_roundtrip (H := Sample.stringUtils)
              "count" (-42) Sample.blank) as [Hset Hunset].
  split.
  - apply Hset; [reflexivity|lia].
  - apply Hunset. reflexivity.
Defined.

(** C9: [getBooleanInDataset] returns [true] exactly when the dataset
    holds the string [true] under the key, and [false] both when the key is
    absent and when another string is stored; so after
    [setBooleanInDataset(element, k, false)] it returns what it returns on
    an element where [k] was never set. *)
Theorem getBooleanInDataset_true_only_on_true `{StringUtils}
    (k : string) (e : Element) :
  (DomUtils.getBooleanInDataset k e = (Js.Normal true, e)
   <-> dataset e !! k = Some "true"%string) /\
  (dataset e !! k = None ->
     DomUtils.getBooleanInDataset k e = (Js.Normal false, e)) /\
  (forall s, dataset e !! k = Some s -> s <> "true"%string ->
     DomUtils.getBooleanInDataset k e = (Js.Normal false, e)) /\
  (isCamelCase k = true -> dataset e !! k = None ->
     exists e',
       DomUtils.setBooleanInDataset k (Js.Boolean false) e
         = (Js.Normal tt, e') /\
       dataset e' !! k = Some "false"%string /\
       fst (DomUtils.getBooleanInDataset k e')
         = fst (DomUtils.getBooleanInDataset k e)).
Proof.
  unfold DomUtils.getBooleanInDataset. run.
  split; [|split; [|split]].
  - split.
    + intros Heq. injection Heq as Heq. apply bool_decide_eq_true in Heq.
      exact Heq.
    + intros ->. reflexivity.
  - intros ->. reflexivity.
  - intros s -> Hs. rewrite bool_decide_eq_false_2; [reflexivity|congruence].
  - intros Hk Hnone. unfold DomUtils.setBooleanInDataset. rewrite Hk.
    cbn [negb]. eexists. split; [reflexivity|]. run.
    rewrite lookup_insert_eq, Hnone. split; reflexivity.
Qed.

Lemma getBooleanInDataset_true_only_on_true_witness :
  DomUtils.getBooleanInDataset "visible" Sample.blank
    = (Js.Normal false, Sample.blank) /\
  exists e',
    DomUtils.setBooleanInDataset (H := Sample.stringUtils) "visible"
      (Js.Boolean false) Sample.blank = (Js.Normal tt, e') /\
    dataset e' !! "visible"%string = Some "false"%string /\
    fst (DomUtils.getBooleanInDataset "visible" e')
      = fst (DomUtils.getBooleanInDataset "visible" Sample.blank).
Proof.
  destruct (getBooleanInDataset_true_only_on_true (H := Sample.stringUtils)
              "visible" Sample.blank) as (_ & Habsent & _ & Hfalse).
  split.
  - apply Habsent. reflexivity.
  - apply Hfalse; reflexivity.
Defined.

Lemma dataset_setters_validate `{StringUtils}
    (name : string) (value : Js.Value) (e : Element) :
  (isCamelCase name = false ->
     DomUtils.setStringInDataset name value e
       = (Js.Throw DomUtils.camelCaseExpected, e) /\
     DomUtils.setIntegerInDataset name value e
       = (Js.Throw DomUtils.camelCaseExpected, e) /\
     DomUtils.setBooleanInDataset name value e
       = (Js.Throw DomUtils.camelCaseExpected, e)) /\
  (isCamelCase name = true ->
     fst (DomUtils.setStringInDataset name value e) = Js.Normal tt /\
     fst (DomUtils.setIntegerInDataset name value e) = Js.Normal tt /\
     fst (DomUtils.setBooleanInDataset name value e) = Js.Normal tt).
Proof.
  unfold DomUtils.setStringInDataset, DomUtils.setIntegerInDataset,
    DomUtils.setBooleanInDataset.
  split; intros ->; repeat split.
Qed.

(** The dataset getters never throw and leave the element alone. *)
Lemma dataset_getters_total (name : string) (e : Element) :
  (exists r, DomUtils.getStringInDataset name e = (Js.Normal r, e)) /\
  (exists r, DomUtils.getIntegerInDataset name e = (Js.Normal r, e)) /\
  (exists r, DomUtils.getBooleanInDataset name e = (Js.Normal r, e)).
Proof.
  unfold DomUtils.getStringInDataset, DomUtils.getIntegerInDataset,
    DomUtils.getBooleanInDataset. run.
  repeat split; try (eexists; reflexivity).
  destruct (dataset e !! name); eexists; reflexivity.
Qed.

(** *** The exclusive choice kept in the class list *)

Section OptionByClass.
Variable optionValue : string.

Let choose (option : string) : M unit :=
  if bool_decide (optionValue = option)
  then classList_.add option
  else classList_.remove option.

Lemma choose_valid (o : string) (e : Element) :
  classList_.tokenError o = None ->
  exists e1,
    choose o e = (Js.Normal tt, e1) /\
    dataset e1 = dataset e /\ style e1 = style e /\
    forall x, x ∈ classList e1 <->
      if decide (x = o) then x = optionValue else x ∈ classList e.
Proof.
  intros Hvalid. unfold choose, classList_.add, classList_.remove.
  rewrite Hvalid.
  destruct (bool_decide_reflect (optionValue = o)) as [Heq|Hne];
    (eexists; split; [reflexivity|]); cbn [classList dataset style];
    (split; [reflexivity|]); (split; [reflexivity|]);
    intros x;
    rewrite ?elem_of_union, ?elem_of_difference, ?elem_of_singleton;
    destruct (decide (x = o)); intuition congruence.
Qed.

Lemma choose_invalid (o : string) (x : Js.Exception) (e : Element) :
  classList_.tokenError o = Some x -> choose o e = (Js.Throw x, e).
Proof.
  intros Hinvalid. unfold choose, classList_.add, classList_.remove.
  rewrite Hinvalid. destruct (bool_decide _); reflexivity.
Qed.

(** With valid tokens the loop of [setOptionByClass] completes;
    afterwards a class of [options] is present exactly when it is
    [optionValue], and the other classes, the dataset and the inline style
    are as before. *)
Lemma setOptionByClass_loop (options : list string) : forall e,
  (forall o, o ∈ options -> classList_.tokenError o = None) ->
  exists e',
    for_of options choose e = (Js.Normal tt, e') /\
    dataset e' = dataset e /\ style e' = style e /\
    forall x, x ∈ classList e' <->
      if decide (x ∈ options) then x = optionValue else x ∈ classList e.
Proof.
  induction options as [|o options IH]; intros e Hvalid.
  - exists e. repeat split; try reflexivity.
    + intros Hx. destruct (decide (x ∈ [])) as [Hin|_]; [|exact Hx].
      inversion Hin.
    + destruct (decide (x ∈ [])) as [Hin|_]; [inversion Hin|auto].
  - cbn [for_of]. unfold mbind, M_bind.
    destruct (choose_valid o e (Hvalid o ltac:(left)))
      as (e1 & -> & Hd1 & Hs1 & Hc1).
    destruct (IH e1 (fun o' Ho' => Hvalid o' ltac:(right; exact Ho')))
      as (e' & Hrun & Hd & Hs & Hc).
    exists e'. split; [exact Hrun|].
    split; [congruence|]. split; [congruence|].
    intros x. rewrite Hc.
    destruct (decide (x ∈ options)) as [Hin|Hnin];
      destruct (decide (x ∈ o :: options)) as [Hin'|Hnin']; try tauto.
    + exfalso. apply Hnin'. right. exact Hin.
    + rewrite Hc1. destruct (decide (x = o)) as [->|Hne]; [tauto|].
      exfalso. apply list_elem_of_In in Hin'. destruct Hin' as [Heq|Hin'].
      * congruence.
      * apply Hnin, list_elem_of_In, Hin'.
    + rewrite Hc1. destruct (decide (x = o)) as [->|Hne]; [|tauto].
      exfalso. apply Hnin'. left.
Qed.

(** Whether the loop completes or a token makes it throw, it leaves the
    dataset, the inline style and the classes that are not in [options]
    as they were. *)
Lemma setOptionByClass_loop_frame (options : list string) : forall e,
  dataset (snd (for_of options choose e)) = dataset e /\
  style (snd (for_of options choose e)) = style e /\
  forall x, x ∉ options ->
    (x ∈ classList (snd (for_of options choose e)) <-> x ∈ classList e).
Proof.
  induction options as [|o options IH]; intros e.
  - cbn. repeat split; auto.
  - cbn [for_of]. unfold mbind, M_bind.
    destruct (classList_.tokenError o) as [x|] eqn:Htoken.
    + rewrite (choose_invalid o x e Htoken). cbn. repeat split; auto.
    + destruct (choose_valid o e Htoken) as (e1 & -> & Hd1 & Hs1 & Hc1).
      destruct (IH e1) as (Hd & Hs & Hc).
      split; [congruence|]. split; [congruence|].
      intros x Hx. rewrite Hc by (intros Hin; apply Hx; right; exact Hin).
      rewrite Hc1. destruct (decide (x = o)) as [->|Hne]; [|tauto].
      exfalso. apply Hx. left.
Qed.

(** When [optionValue] is the only class of [options] that is present,
    [getOptionByClass] returns it. *)
Lemma getOptionByClass_only (options : list string) (e : Element) :
  optionValue ∈ options ->
  (forall x, x ∈ options -> (x ∈ classList e <-> x = optionValue)) ->
  DomUtils.getOptionByClass options e = (Js.Normal (Some optionValue), e).
Proof.
  induction options as [|o options IH]; intros Hin Honly.
  - inversion Hin.
  - cbn [DomUtils.getOptionByClass]. run.
    destruct (bool_decide_reflect (o ∈ classList e)) as [Ho|Ho].
    + apply (Honly o) in Ho; [|left]. subst o. reflexivity.
    + apply IH.
      * apply list_elem_of_In in Hin. destruct Hin as [Heq|Hin].
        -- exfalso. apply Ho. subst o. apply Honly; [left|reflexivity].
        -- apply list_elem_of_In, Hin.
      * intros x Hx. apply Honly. right. exact Hx.
Qed.

End OptionByClass.

(** C5, as stated, fails: [b] is in the options [a], the empty string,
    [b], and [setOptionByClass] throws the DOMException of
    [classList.remove('')] before it adds [b]. *)
Lemma setOptionByClass_stops_at_an_empty_option :
  bool_decide ("b"%string ∈ ["a"; ""; "b"]%string) = true /\
  fst (DomUtils.setOptionByClass ["a"; ""; "b"]%string "b" Sample.blank)
  = Js.Throw (Js.DOMException "SyntaxError") /\
  DomUtils.getBooleanByClass "b"
    (snd (DomUtils.setOptionByClass ["a"; ""; "b"]%string "b" Sample.blank))
  = (Js.Normal false,
     snd (DomUtils.setOptionByClass ["a"; ""; "b"]%string "b" Sample.blank)).
Proof. repeat split; vm_compute; reflexivity. Qed.

(** C5, amended: with a value that is not in [options],
    [setOptionByClass] throws IllegalArgument and the element is as before;
    with a value that is in [options], all of whose entries are class
    tokens (not empty, no white space), it completes, the class equal to
    the value is present, every other class of [options] is absent, and
    [getOptionByClass] on the same list returns the value. *)
Theorem setOptionByClass_exclusive_choice
    (options : list string) (optionValue : string) (e : Element) :
  (optionValue ∉ options ->
     exists message,
       DomUtils.setOptionByClass options optionValue e
       = (Js.Throw (Js.IllegalArgumentException message), e)) /\
  (optionValue ∈ options ->
   (forall option, option ∈ options ->
      classList_.tokenError option = None) ->
     exists e',
       DomUtils.setOptionByClass options optionValue e = (Js.Normal tt, e') /\
       optionValue ∈ classList e' /\
       (forall option, option ∈ options -> option <> optionValue ->
          option ∉ classList e') /\
       DomUtils.getOptionByClass options e'
       = (Js.Normal (Some optionValue), e')).
Proof.
  unfold DomUtils.setOptionByClass. split.
  - intros Hin. rewrite bool_decide_eq_false_2 by exact Hin. cbn [negb].
    eexists. reflexivity.
  - intros Hin Hvalid. rewrite bool_decide_eq_true_2 by exact Hin.
    cbn [negb].
    destruct (setOptionByClass_loop optionValue options e Hvalid)
      as (e' & Hrun & _ & _ & Hc).
    assert (Honly : forall x, x ∈ options ->
                      (x ∈ classList e' <-> x = optionValue)).
    { intros x Hx. rewrite Hc. destruct (decide (x ∈ options)); tauto. }
    exists e'. split; [exact Hrun|]. split; [|split].
    + apply Honly; [exact Hin|reflexivity].
    + intros option Ho Hne Hpresent. apply Hne, Honly; assumption.
    + apply getOptionByClass_only; assumption.
Qed.

Lemma setOptionByClass_exclusive_choice_witness :
  (exists message,
     DomUtils.setOptionByClass ["a"; "b"]%string "z" Sample.blank
     = (Js.Throw (Js.IllegalArgumentException message), Sample.blank)) /\
  (exists e',
     DomUtils.setOptionByClass ["a"; "b"; "c"]%string "b"
       {| classList := {["a"; "c"; "other"]}%string;
          dataset := ∅; style := ∅ |} = (Js.Normal tt, e') /\
     "b"%string ∈ classList e' /\
     (forall option, option ∈ ["a"; "b"; "c"]%string ->
        option <> "b"%string -> option ∉ classList e') /\
     DomUtils.getOptionByClass ["a"; "b"; "c"]%string e'
     = (Js.Normal (Some "b"%string), e')).
Proof.
  split.
  - apply (setOptionByClass_exclusive_choice ["a"; "b"]%string "z"
             Sample.blank).
    apply (bool_decide_unpack ("z"%string ∉ ["a"; "b"]%string)).
    vm_compute. exact I.
  - apply (setOptionByClass_exclusive_choice ["a"; "b"; "c"]%string "b").
    + apply (bool_decide_unpack ("b"%string ∈ ["a"; "b"; "c"]%string)).
      vm_compute. exact I.
    + intros option Hin.
      apply list_elem_of_In in Hin.
      destruct Hin as [<-|[<-|[<-|[]]]]; reflexivity.
Defined.

(** ** The tree searches *)

Section TreeSearchFacts.
Context {node : Type} `{EqDecision node} (d : Dom.t node).

Lemma findParentElement_shape className tagName topElement fuel :
  forall element,
  DomUtils.findParentElement_loop d fuel className tagName topElement element
  = DomUtils.moveThenTest d (Dom.parentNode d)
      (fun e => DomUtils.isElement d e
                && DomUtils.matches d className tagName e)
      fuel topElement element.
Proof.
  induction fuel as [|fuel IH]; intros element; [reflexivity|].
  cbn [DomUtils.findParentElement_loop DomUtils.moveThenTest].
  destruct element as [e|]; [|reflexivity].
  destruct (DomUtils.inside d topElement e); [|reflexivity].
  destruct (Dom.parentNode d e) as [e'|]; [|reflexivity].
  rewrite IH. reflexivity.
Qed.

Lemma findPreviousElementAndParent_shape className tagName topElement fuel :
  forall element,
  DomUtils.findPreviousElementAndParent_loop d fuel className tagName
    topElement element
  = DomUtils.moveThenTest d (DomUtils.previousOrParent d)
      (fun e => DomUtils.isElement d e
                && DomUtils.matches d className tagName e)
      fuel topElement element.
Proof.
  induction fuel as [|fuel IH]; intros element; [reflexivity|].
  cbn [DomUtils.findPreviousElementAndParent_loop DomUtils.moveThenTest].
  destruct element as [e|]; [|reflexivity].
  destruct (DomUtils.inside d topElement e); [|reflexivity].
  destruct (DomUtils.previousOrParent d e) as [e'|]; [|reflexivity].
  rewrite IH. reflexivity.
Qed.

Lemma findPreviousElementAndParentByClassNames_shape classNames topElement
    fuel :
  forall element,
  DomUtils.findPreviousElementAndParentByClassNames_loop d fuel classNames
    topElement element
  = DomUtils.moveThenTest d (DomUtils.previousOrParent d)
      (fun e => DomUtils.isElement d e
                && DomUtils.containsAllClassNames (Dom.classList d e)
                     classNames)
      fuel topElement element.
Proof.
  induction fuel as [|fuel IH]; intros element; [reflexivity|].
  cbn [DomUtils.findPreviousElementAndParentByClassNames_loop
       DomUtils.moveThenTest].
  destruct element as [e|]; [|reflexivity].
  destruct (DomUtils.inside d topElement e); [|reflexivity].
  destruct (DomUtils.previousOrParent d e) as [e'|]; [|reflexivity].
  rewrite IH. reflexivity.
Qed.

(** What [findElementAndParent] returns passed the loop condition and the
    tests: it is an element, it is neither the stop node nor tagged
    [BODY], and it matches. *)
Lemma findElementAndParent_result className tagName topElement fuel :
  forall element result,
  DomUtils.findElementAndParent_loop d fuel className tagName topElement
    element = Some (Js.Normal (Some result)) ->
  Some result <> topElement /\
  Dom.tagName d result <> Some "BODY"%string /\
  Dom.nodeType d result = Dom.ELEMENT_NODE /\
  DomUtils.matches d className tagName result = true.
Proof.
  induction fuel as [|fuel IH]; intros element result; [discriminate|].
  cbn [DomUtils.findElementAndParent_loop].
  destruct element as [e|]; [|discriminate].
  destruct (DomUtils.inside d topElement e) eqn:Hin; [|discriminate].
  destruct (DomUtils.isElement d e && DomUtils.matches d className tagName e)
    eqn:Htest.
  - intros [= <-]. apply andb_prop in Hin as [Htop Hbody].
    apply andb_prop in Htest as [Hel Hm]. unfold DomUtils.isElement in Hel.
    apply bool_decide_eq_true in Htop, Hbody, Hel. auto.
  - apply IH.
Qed.

(** [findElementAndParent] never throws. *)
Lemma findElementAndParent_no_throw className tagName topElement fuel :
  forall element x,
  DomUtils.findElementAndParent_loop d fuel className tagName topElement
    element <> Some (Js.Throw x).
Proof.
  induction fuel as [|fuel IH]; intros element x; [discriminate|].
  cbn [DomUtils.findElementAndParent_loop].
  destruct element as [e|]; [|discriminate].
  destruct (DomUtils.inside d topElement e); [|discriminate].
  destruct (DomUtils.isElement d e && DomUtils.matches d className tagName e);
    [discriminate|apply IH].
Qed.

(** The first iteration of [findParentElement]: the parent is tested
    before the loop condition sees it, so it is returned even when it is
    the stop node or tagged [BODY]; and with no parent the test reads a
    property of [null]. *)
Lemma findParentElement_first_iteration fuel node0 className tagName
    topElement :
  DomUtils.inside d topElement node0 = true ->
  match Dom.parentNode d node0 with
  | Some p =>
      DomUtils.isElement d p && DomUtils.matches d className tagName p = true ->
      DomUtils.findParentElement d (S fuel) node0 className tagName topElement
      = Some (Js.Normal (Some p))
  | None =>
      DomUtils.findParentElement d (S fuel) node0 className tagName topElement
      = Some (Js.Throw DomUtils.nullDereference)
  end.
Proof.
  intros Hin. unfold DomUtils.findParentElement.
  cbn [DomUtils.findParentElement_loop]. rewrite Hin.
  destruct (Dom.parentNode d node0) as [p|]; [|reflexivity].
  intros ->. reflexivity.
Qed.

Section Ordered.
Variable pos : node -> nat.
Hypothesis order : Dom.documentOrder d pos.

Lemma parentNode_before n p :
  Dom.parentNode d n = Some p -> (pos p < pos n)%nat.
Proof. apply order. Qed.

Lemma previousOrParent_before n p :
  DomUtils.previousOrParent d n = Some p -> (pos p < pos n)%nat.
Proof.
  unfold DomUtils.previousOrParent.
  destruct (Dom.previousSibling d n) as [s|] eqn:Hs.
  - intros [= <-]. apply order, Hs.
  - apply order.
Qed.

Section MoveThenTest.
Variables (next : node -> option node) (test : node -> bool).
Hypothesis next_before : forall n p, next n = Some p -> (pos p < pos n)%nat.

(** A node returned by a search that moves first comes before the node
    the search was at. *)
Lemma moveThenTest_result_before topElement fuel : forall e result,
  DomUtils.moveThenTest d next test fuel topElement (Some e)
  = Some (Js.Normal (Some result)) ->
  (pos result < pos e)%nat.
Proof.
  induction fuel as [|fuel IH]; intros e result; [discriminate|].
  cbn [DomUtils.moveThenTest].
  destruct (DomUtils.inside d topElement e); [|discriminate].
  destruct (next e) as [e'|] eqn:Hnext; [|discriminate].
  apply next_before in Hnext.
  destruct (test e').
  - intros [= <-]. exact Hnext.
  - intros Hrun. apply IH in Hrun. lia.
Qed.

(** The loop ends within [pos e + 1] iterations. *)
Lemma moveThenTest_terminates topElement fuel : forall e,
  (pos e < fuel)%nat ->
  DomUtils.moveThenTest d next test fuel topElement (Some e) <> None.
Proof.
  induction fuel as [|fuel IH]; intros e Hfuel; [lia|].
  cbn [DomUtils.moveThenTest].
  destruct (DomUtils.inside d topElement e); [|discriminate].
  destruct (next e) as [e'|] eqn:Hnext; [|discriminate].
  apply next_before in Hnext.
  destruct (test e'); [discriminate|]. apply IH. lia.
Qed.

End MoveThenTest.

Lemma findElementAndParent_terminates className tagName topElement fuel :
  forall element,
  (from_option (fun e => S (pos e)) 0%nat element < fuel)%nat ->
  DomUtils.findElementAndParent_loop d fuel className tagName topElement
    element <> None.
Proof.
  induction fuel as [|fuel IH]; intros element Hfuel; [lia|].
  cbn [DomUtils.findElementAndParent_loop].
  destruct element as [e|]; [|discriminate]. cbn in Hfuel.
  destruct (DomUtils.inside d topElement e); [|discriminate].
  destruct (DomUtils.isElement d e && DomUtils.matches d className tagName e);
    [discriminate|].
  apply IH.
  destruct (Dom.parentNode d e) as [p|] eqn:Hp; cbn; [|lia].
  apply parentNode_before in Hp. lia.
Qed.

(** On a tree the four searches end: a bound of two more than the
    position of the start node is never reached. *)
Lemma searches_terminate fuel node0 className tagName classNames topElement :
  (S (pos node0) < fuel)%nat ->
  DomUtils.findElementAndParent d fuel node0 className tagName topElement
    <> None /\
  DomUtils.findParentElement d fuel node0 className tagName topElement
    <> None /\
  DomUtils.findPreviousElementAndParent d fuel node0 className tagName
    topElement <> None /\
  DomUtils.findPreviousElementAndParentByClassNames d fuel node0 classNames
    topElement <> None.
Proof.
  intros Hfuel.
  unfold DomUtils.findElementAndParent, DomUtils.findParentElement,
    DomUtils.findPreviousElementAndParent,
    DomUtils.findPreviousElementAndParentByClassNames.
  rewrite findParentElement_shape, findPreviousElementAndParent_shape,
    findPreviousElementAndParentByClassNames_shape.
  split; [apply findElementAndParent_terminates, Hfuel|].
  split; [apply moveThenTest_terminates; [apply parentNode_before|lia]|].
  split; apply moveThenTest_terminates;
    solve [apply previousOrParent_before | lia].
Qed.

End Ordered.
End TreeSearchFacts.

Lemma Sample_documentOrder : Dom.documentOrder Sample.dom Sample.pos.
Proof.
  split; intros n p; destruct n; cbn; intros [= <-]; cbn; lia.
Qed.

(** C3: on a tree, [findParentElement], [findPreviousElementAndParent] and
    [findPreviousElementAndParentByClassNames] never return the node they
    started from, whatever the predicate and the stop node;
    [findElementAndParent] returns the start node when it is an element
    that matches and is neither the stop node nor tagged [BODY]. *)
Theorem strict_searches_never_return_start {node : Type} `{EqDecision node}
    (d : Dom.t node) (pos : node -> nat) (fuel : nat) (node0 : node)
    (className tagName : option string) (classNames : list string)
    (topElement : option node) :
  Dom.documentOrder d pos ->
  DomUtils.findParentElement d fuel node0 className tagName topElement
    <> Some (Js.Normal (Some node0)) /\
  DomUtils.findPreviousElementAndParent d fuel node0 className tagName
    topElement <> Some (Js.Normal (Some node0)) /\
  DomUtils.findPreviousElementAndParentByClassNames d fuel node0 classNames
    topElement <> Some (Js.Normal (Some node0)) /\
  (Dom.nodeType d node0 = Dom.ELEMENT_NODE ->
   DomUtils.matches d className tagName node0 = true ->
   Some node0 <> topElement ->
   Dom.tagName d node0 <> Some "BODY"%string ->
   DomUtils.findElementAndParent d (S fuel) node0 className tagName topElement
   = Some (Js.Normal (Some node0))).
Proof.
  intros Horder.
  unfold DomUtils.findParentElement, DomUtils.findPreviousElementAndParent,
    DomUtils.findPreviousElementAndParentByClassNames.
  rewrite findParentElement_shape, findPreviousElementAndParent_shape,
    findPreviousElementAndParentByClassNames_shape.
  split; [|split; [|split]].
  - intros Hrun. apply (moveThenTest_result_before d pos) in Hrun; [lia|].
    apply parentNode_before, Horder.
  - intros Hrun. apply (moveThenTest_result_before d pos) in Hrun; [lia|].
    apply previousOrParent_before, Horder.
  - intros Hrun. apply (moveThenTest_result_before d pos) in Hrun; [lia|].
    apply previousOrParent_before, Horder.
  - intros Hel Hm Htop Hbody.
    unfold DomUtils.findElementAndParent.
    cbn [DomUtils.findElementAndParent_loop].
    unfold DomUtils.inside, DomUtils.isElement.
    rewrite !bool_decide_eq_true_2 by assumption. rewrite Hm. reflexivity.
Qed.

Lemma strict_searches_never_return_start_witness :
  DomUtils.findParentElement Sample.dom 11 Sample.divX (Some "x"%string) None
    None <> Some (Js.Normal (Some Sample.divX)) /\
  DomUtils.findPreviousElementAndParent Sample.dom 11 Sample.divX
    (Some "x"%string) None None <> Some (Js.Normal (Some Sample.divX)) /\
  DomUtils.findPreviousElementAndParentByClassNames Sample.dom 11 Sample.divX
    ["x"%string] None <> Some (Js.Normal (Some Sample.divX)) /\
  DomUtils.findElementAndParent Sample.dom 11 Sample.divX (Some "x"%string)
    None None = Some (Js.Normal (Some Sample.divX)).
Proof.
  destruct (strict_searches_never_return_start Sample.dom Sample.pos 10
              Sample.divX (Some "x"%string) None ["x"%string] None
              Sample_documentOrder) as (_ & _ & _ & Hself).
  destruct (strict_searches_never_return_start Sample.dom Sample.pos 11
              Sample.divX (Some "x"%string) None ["x"%string] None
              Sample_documentOrder) as (Hparent & Hprev & Hnames & _).
  split; [exact Hparent|]. split; [exact Hprev|]. split; [exact Hnames|].
  apply Hself; [reflexivity|vm_compute; reflexivity|discriminate|discriminate].
Defined.

(** On the sample document the searches end within twelve iterations. *)
Lemma Sample_searches_terminate node0 className tagName classNames topElement :
  DomUtils.findElementAndParent Sample.dom 12 node0 className tagName
    topElement <> None /\
  DomUtils.findParentElement Sample.dom 12 node0 className tagName topElement
    <> None /\
  DomUtils.findPreviousElementAndParent Sample.dom 12 node0 className tagName
    topElement <> None /\
  DomUtils.findPreviousElementAndParentByClassNames Sample.dom 12 node0
    classNames topElement <> None.
Proof.
  apply (searches_terminate Sample.dom Sample.pos Sample_documentOrder).
  destruct node0; cbn; lia.
Qed.

(** C1: the searches that move before they test return the node at which
    the walk is to stop.  Below [BODY > DIV#top > DIV.x > SPAN#start],
    [findParentElement] from [DIV#top] with the tag name [BODY] returns the
    [BODY] element, and from [SPAN#start] with the class [x] and the stop
    node [DIV.x] it returns [DIV.x]; the two previous-sibling searches do
    the same.  [findElementAndParent] returns [undefined] on the same
    boundaries. *)
Theorem strict_searches_return_the_boundary :
  DomUtils.findParentElement Sample.dom 12 Sample.top None
    (Some "BODY"%string) None = Some (Js.Normal (Some Sample.body)) /\
  DomUtils.findParentElement Sample.dom 12 Sample.start (Some "x"%string)
    None (Some Sample.divX) = Some (Js.Normal (Some Sample.divX)) /\
  DomUtils.findPreviousElementAndParent Sample.dom 12 Sample.top None
    (Some "BODY"%string) None = Some (Js.Normal (Some Sample.body)) /\
  DomUtils.findPreviousElementAndParent Sample.dom 12 Sample.text
    (Some "x"%string) None (Some Sample.divX)
  = Some (Js.Normal (Some Sample.divX)) /\
  DomUtils.findPreviousElementAndParentByClassNames Sample.dom 12 Sample.top
    [] None = Some (Js.Normal (Some Sample.body)) /\
  DomUtils.findPreviousElementAndParentByClassNames Sample.dom 12 Sample.divC
    ["b"%string] (Some Sample.divB) = Some (Js.Normal (Some Sample.divB)) /\
  DomUtils.findElementAndParent Sample.dom 12 Sample.top None
    (Some "BODY"%string) None = Some (Js.Normal None) /\
  DomUtils.findElementAndParent Sample.dom 12 Sample.start (Some "x"%string)
    None (Some Sample.divX) = Some (Js.Normal None).
Proof. repeat split; vm_compute; reflexivity. Qed.

(** C2: where the parent chain ends, the searches that move before they
    test read [nodeType] of [null] and throw a TypeError: from an element
    attached to nothing, and from the [HTML] element, whose chain ends at
    the document.  [findElementAndParent] returns [undefined] there. *)
Theorem strict_searches_throw_at_the_end_of_the_chain :
  DomUtils.findParentElement Sample.dom 12 Sample.orphan (Some "x"%string)
    None None = Some (Js.Throw DomUtils.nullDereference) /\
  DomUtils.findParentElement Sample.dom 12 Sample.html (Some "x"%string)
    None None = Some (Js.Throw DomUtils.nullDereference) /\
  DomUtils.findPreviousElementAndParent Sample.dom 12 Sample.orphan
    (Some "x"%string) None None = Some (Js.Throw DomUtils.nullDereference) /\
  DomUtils.findPreviousElementAndParentByClassNames Sample.dom 12
    Sample.orphan ["x"%string] None
  = Some (Js.Throw DomUtils.nullDereference) /\
  Js.isIllegalArgument (A := option Sample.node)
    (Js.Throw DomUtils.nullDereference) = false /\
  DomUtils.findElementAndParent Sample.dom 12 Sample.html (Some "x"%string)
    None None = Some (Js.Normal None).
Proof. repeat split; vm_compute; reflexivity. Qed.

(** * Further properties *)

(** ** What the tree searches return *)

Section WalkFacts.
Context {node : Type} `{EqDecision node} (d : Dom.t node).

Section MoveThenTestResult.
Variables (next : node -> option node) (test : node -> bool).
Variable topElement : option node.

#[local] Abbreviation passed := (DomUtils.passed d next test topElement).

Lemma moveThenTest_found fuel : forall e r,
  DomUtils.moveThenTest d next test fuel topElement (Some e)
  = Some (Js.Normal (Some r)) ->
  exists k, (k < fuel)%nat /\ DomUtils.steps next (S k) e = Some r /\
            test r = true /\ passed k e.
Proof.
  induction fuel as [|fuel IH]; intros e r; [discriminate|].
  cbn [DomUtils.moveThenTest].
  destruct (DomUtils.inside d topElement e) eqn:Hin; [|discriminate].
  destruct (next e) as [e'|] eqn:Hnext; [|discriminate].
  destruct (test e') eqn:Htest.
  - intros [= <-]. exists 0%nat. split; [lia|].
    split; [cbn; rewrite Hnext; reflexivity|]. split; [exact Htest|].
    intros j Hj. assert (j = 0%nat) as -> by lia.
    exists e. split; [reflexivity|]. split; [exact Hin|lia].
  - intros Hrun. destruct (IH _ _ Hrun) as (k & Hk & Hsteps & Hr & Hpassed).
    exists (S k). split; [lia|].
    split; [cbn [DomUtils.steps]; rewrite Hnext; exact Hsteps|].
    split; [exact Hr|].
    intros [|j] Hj.
    + exists e. split; [reflexivity|]. split; [exact Hin|lia].
    + destruct (Hpassed j ltac:(lia)) as (a & Ha & Hina & Hta).
      exists a. cbn [DomUtils.steps]. rewrite Hnext.
      split; [exact Ha|]. split; [exact Hina|]. intros _.
      destruct j as [|j]; [|apply Hta; lia].
      cbn in Ha. injection Ha as <-. exact Htest.
Qed.

Lemma moveThenTest_finds k : forall fuel e r,
  (k < fuel)%nat -> DomUtils.steps next (S k) e = Some r ->
  test r = true -> passed k e ->
  DomUtils.moveThenTest d next test fuel topElement (Some e)
  = Some (Js.Normal (Some r)).
Proof.
  induction k as [|k IH]; intros fuel e r Hfuel Hsteps Hr Hpassed;
    (destruct fuel as [|fuel]; [lia|]);
    cbn [DomUtils.moveThenTest];
    destruct (Hpassed 0%nat ltac:(lia)) as (a0 & Ha0 & Hin0 & _);
    cbn in Ha0; injection Ha0 as <-; rewrite Hin0;
    cbn [DomUtils.steps] in Hsteps;
    destruct (next e) as [e'|] eqn:Hnext; try discriminate.
  - injection Hsteps as ->. rewrite Hr. reflexivity.
  - destruct (Hpassed 1%nat ltac:(lia)) as (a1 & Ha1 & _ & Ht1).
    cbn [DomUtils.steps] in Ha1. rewrite Hnext in Ha1.
    injection Ha1 as <-. rewrite (Ht1 ltac:(lia)).
    apply IH; [lia|exact Hsteps|exact Hr|].
    intros j Hj. destruct (Hpassed (S j) ltac:(lia)) as (a & Ha & Hina & Hta).
    cbn [DomUtils.steps] in Ha. rewrite Hnext in Ha.
    exists a. split; [exact Ha|]. split; [exact Hina|].
    intros _. apply Hta. lia.
Qed.

(** Moving one step further from a node that passes the loop condition
    keeps the walk away from [null] when an invariant [below] says so. *)
Variable below : node -> Prop.
Hypothesis below_step : forall e,
  below e -> DomUtils.inside d topElement e = true ->
  exists e', next e = Some e' /\ below e'.

Lemma moveThenTest_no_throw fuel : forall e x,
  below e ->
  DomUtils.moveThenTest d next test fuel topElement (Some e)
  <> Some (Js.Throw x).
Proof.
  induction fuel as [|fuel IH]; intros e x Hbelow; [discriminate|].
  cbn [DomUtils.moveThenTest].
  destruct (DomUtils.inside d topElement e) eqn:Hin; [|discriminate].
  destruct (below_step e Hbelow Hin) as (e' & -> & Hbelow').
  destruct (test e'); [discriminate|]. apply IH. exact Hbelow'.
Qed.

End MoveThenTestResult.

(** A larger bound does not change the completion of a search. *)
Lemma moveThenTest_stable next test topElement fuel : forall element c fuel',
  DomUtils.moveThenTest d next test fuel topElement element = Some c ->
  (fuel <= fuel')%nat ->
  DomUtils.moveThenTest d next test fuel' topElement element = Some c.
Proof.
  induction fuel as [|fuel IH]; intros element c fuel'; [discriminate|].
  intros Hrun Hle. destruct fuel' as [|fuel']; [lia|].
  cbn [DomUtils.moveThenTest] in *.
  destruct element as [e|]; [|exact Hrun].
  destruct (DomUtils.inside d topElement e); [|exact Hrun].
  destruct (next e) as [e'|]; [|exact Hrun].
  destruct (test e'); [exact Hrun|]. apply IH; [exact Hrun|lia].
Qed.

Lemma findElementAndParent_stable className tagName topElement fuel :
  forall element c fuel',
  DomUtils.findElementAndParent_loop d fuel className tagName topElement
    element = Some c ->
  (fuel <= fuel')%nat ->
  DomUtils.findElementAndParent_loop d fuel' className tagName topElement
    element = Some c.
Proof.
  induction fuel as [|fuel IH]; intros element c fuel'; [discriminate|].
  intros Hrun Hle. destruct fuel' as [|fuel']; [lia|].
  cbn [DomUtils.findElementAndParent_loop] in *.
  destruct element as [e|]; [|exact Hrun].
  destruct (DomUtils.inside d topElement e); [|exact Hrun].
  destruct (DomUtils.isElement d e && DomUtils.matches d className tagName e);
    [exact Hrun|].
  apply IH; [exact Hrun|lia].
Qed.

End WalkFacts.

Section SearchResults.
Context {node : Type} `{EqDecision node} (d : Dom.t node).

Lemma findElementAndParent_found className tagName topElement fuel :
  forall e r,
  DomUtils.findElementAndParent_loop d fuel className tagName topElement
    (Some e) = Some (Js.Normal (Some r)) ->
  exists k, (k < fuel)%nat /\
    DomUtils.steps (Dom.parentNode d) k e = Some r /\
    DomUtils.rejected d (Dom.parentNode d)
      (fun a => DomUtils.isElement d a
                && DomUtils.matches d className tagName a)
      topElement k e.
Proof.
  induction fuel as [|fuel IH]; intros e r; [discriminate|].
  cbn [DomUtils.findElementAndParent_loop].
  destruct (DomUtils.inside d topElement e) eqn:Hin; [|discriminate].
  destruct (DomUtils.isElement d e && DomUtils.matches d className tagName e)
    eqn:Htest.
  - intros [= <-]. exists 0%nat. split; [lia|]. split; [reflexivity|].
    intros j Hj. lia.
  - destruct (Dom.parentNode d e) as [p|] eqn:Hp.
    + intros Hrun. destruct (IH _ _ Hrun) as (k & Hk & Hsteps & Hrej).
      exists (S k). split; [lia|].
      split; [cbn [DomUtils.steps]; rewrite Hp; exact Hsteps|].
      intros [|j] Hj.
      * exists e. split; [reflexivity|]. split; assumption.
      * destruct (Hrej j ltac:(lia)) as (a & Ha & Hina & Hta).
        exists a. cbn [DomUtils.steps]. rewrite Hp. auto.
    + destruct fuel; discriminate.
Qed.

Lemma findElementAndParent_finds className tagName topElement k :
  forall fuel e r,
  (k < fuel)%nat ->
  DomUtils.steps (Dom.parentNode d) k e = Some r ->
  DomUtils.inside d topElement r = true ->
  DomUtils.isElement d r && DomUtils.matches d className tagName r = true ->
  DomUtils.rejected d (Dom.parentNode d)
    (fun a => DomUtils.isElement d a
              && DomUtils.matches d className tagName a)
    topElement k e ->
  DomUtils.findElementAndParent_loop d fuel className tagName topElement
    (Some e) = Some (Js.Normal (Some r)).
Proof.
  induction k as [|k IH]; intros fuel e r Hfuel Hsteps Hin Htest Hrej;
    (destruct fuel as [|fuel]; [lia|]);
    cbn [DomUtils.findElementAndParent_loop].
  - cbn in Hsteps. injection Hsteps as ->. rewrite Hin, Htest. reflexivity.
  - destruct (Hrej 0%nat ltac:(lia)) as (a0 & Ha0 & Hin0 & Ht0).
    cbn in Ha0. injection Ha0 as <-. rewrite Hin0, Ht0.
    cbn [DomUtils.steps] in Hsteps.
    destruct (Dom.parentNode d e) as [p|] eqn:Hp; [|discriminate].
    apply IH; [lia|exact Hsteps|exact Hin|exact Htest|].
    intros j Hj. destruct (Hrej (S j) ltac:(lia)) as (a & Ha & Hina & Hta).
    cbn [DomUtils.steps] in Ha. rewrite Hp in Ha. exists a. auto.
Qed.

(** [findElementAndParent] returns [r] exactly when [r] is the node
    itself or an ancestor, reached by [k] parent links, that satisfies the
    loop condition and the test while the [k] nodes before it satisfy the
    loop condition and fail the test; and it never throws. *)
Theorem findElementAndParent_nearest_self_or_ancestor
    (fuel : nat) (node0 : node) (className tagName : option string)
    (topElement : option node) (r : node) :
  (DomUtils.findElementAndParent d fuel node0 className tagName topElement
   = Some (Js.Normal (Some r))
   <->
   exists k, (k < fuel)%nat /\
     DomUtils.steps (Dom.parentNode d) k node0 = Some r /\
     DomUtils.inside d topElement r = true /\
     DomUtils.isElement d r && DomUtils.matches d className tagName r = true /\
     DomUtils.rejected d (Dom.parentNode d)
       (fun a => DomUtils.isElement d a
                 && DomUtils.matches d className tagName a)
       topElement k node0) /\
  (forall x,
     DomUtils.findElementAndParent d fuel node0 className tagName topElement
     <> Some (Js.Throw x)).
Proof.
  unfold DomUtils.findElementAndParent. split; [split|].
  - intros Hrun.
    destruct (findElementAndParent_found _ _ _ _ _ _ Hrun)
      as (k & Hk & Hsteps & Hrej).
    destruct (findElementAndParent_result d _ _ _ _ _ _ Hrun)
      as (Htop & Hbody & Hel & Hm).
    exists k. split; [exact Hk|]. split; [exact Hsteps|].
    split; [|split; [|exact Hrej]].
    + unfold DomUtils.inside. rewrite !bool_decide_eq_true_2 by assumption.
      reflexivity.
    + unfold DomUtils.isElement. rewrite bool_decide_eq_true_2 by assumption.
      exact Hm.
  - intros (k & Hk & Hsteps & Hin & Htest & Hrej).
    eapply findElementAndParent_finds; eassumption.
  - intros x. apply findElementAndParent_no_throw.
Qed.

(** [findParentElement] returns [r] exactly when [r] is a strict
    ancestor, reached by [k+1] parent links, that passes the test, while
    the start node and the [k] ancestors before [r] satisfy the loop
    condition and these [k] fail the test.  The loop condition is not asked
    of [r]. *)
Theorem findParentElement_nearest_strict_ancestor
    (fuel : nat) (node0 : node) (className tagName : option string)
    (topElement : option node) (r : node) :
  DomUtils.findParentElement d fuel node0 className tagName topElement
  = Some (Js.Normal (Some r))
  <->
  exists k, (k < fuel)%nat /\
    DomUtils.steps (Dom.parentNode d) (S k) node0 = Some r /\
    DomUtils.isElement d r && DomUtils.matches d className tagName r = true /\
    DomUtils.passed d (Dom.parentNode d)
      (fun a => DomUtils.isElement d a
                && DomUtils.matches d className tagName a)
      topElement k node0.
Proof.
  unfold DomUtils.findParentElement. rewrite findParentElement_shape. split.
  - apply (moveThenTest_found d (Dom.parentNode d)
             (fun a => DomUtils.isElement d a
                       && DomUtils.matches d className tagName a)).
  - intros (k & Hk & Hsteps & Htest & Hpassed).
    apply (moveThenTest_finds d (Dom.parentNode d)
             (fun a => DomUtils.isElement d a
                       && DomUtils.matches d className tagName a)
             topElement k); assumption.
Qed.

(** [findPreviousElementAndParent] and
    [findPreviousElementAndParentByClassNames] return [r] exactly when [r]
    is the [k+1]-th node of the walk that goes to the previous sibling, or
    to the parent where there is none, and passes the test, while the start
    node and the [k] nodes before [r] satisfy the loop condition and these
    [k] fail the test. *)
Theorem findPreviousElementAndParent_first_on_the_walk
    (fuel : nat) (node0 : node) (className tagName : option string)
    (classNames : list string) (topElement : option node) (r : node) :
  (DomUtils.findPreviousElementAndParent d fuel node0 className tagName
     topElement = Some (Js.Normal (Some r))
   <->
   exists k, (k < fuel)%nat /\
     DomUtils.steps (DomUtils.previousOrParent d) (S k) node0 = Some r /\
     DomUtils.isElement d r && DomUtils.matches d className tagName r = true /\
     DomUtils.passed d (DomUtils.previousOrParent d)
       (fun a => DomUtils.isElement d a
                 && DomUtils.matches d className tagName a)
       topElement k node0) /\
  (DomUtils.findPreviousElementAndParentByClassNames d fuel node0 classNames
     topElement = Some (Js.Normal (Some r))
   <->
   exists k, (k < fuel)%nat /\
     DomUtils.steps (DomUtils.previousOrParent d) (S k) node0 = Some r /\
     DomUtils.isElement d r
     && DomUtils.containsAllClassNames (Dom.classList d r) classNames = true /\
     DomUtils.passed d (DomUtils.previousOrParent d)
       (fun a => DomUtils.isElement d a
                 && DomUtils.containsAllClassNames (Dom.classList d a)
                      classNames)
       topElement k node0).
Proof.
  unfold DomUtils.findPreviousElementAndParent,
    DomUtils.findPreviousElementAndParentByClassNames.
  rewrite findPreviousElementAndParent_shape,
    findPreviousElementAndParentByClassNames_shape.
  split; split.
  - apply (moveThenTest_found d (DomUtils.previousOrParent d)
             (fun a => DomUtils.isElement d a
                       && DomUtils.matches d className tagName a)).
  - intros (k & Hk & Hsteps & Htest & Hpassed).
    apply (moveThenTest_finds d (DomUtils.previousOrParent d)
             (fun a => DomUtils.isElement d a
                       && DomUtils.matches d className tagName a)
             topElement k); assumption.
  - apply (moveThenTest_found d (DomUtils.previousOrParent d)
             (fun a => DomUtils.isElement d a
                       && DomUtils.containsAllClassNames (Dom.classList d a)
                            classNames)).
  - intros (k & Hk & Hsteps & Htest & Hpassed).
    apply (moveThenTest_finds d (DomUtils.previousOrParent d)
             (fun a => DomUtils.isElement d a
                       && DomUtils.containsAllClassNames (Dom.classList d a)
                            classNames)
             topElement k); assumption.
Qed.

(** Without a class name and without a tag name the three searches that
    take both never return a node. *)
Theorem searches_without_predicate_find_nothing
    (fuel : nat) (node0 : node) (topElement : option node) (r : node) :
  DomUtils.findElementAndParent d fuel node0 None None topElement
    <> Some (Js.Normal (Some r)) /\
  DomUtils.findParentElement d fuel node0 None None topElement
    <> Some (Js.Normal (Some r)) /\
  DomUtils.findPreviousElementAndParent d fuel node0 None None topElement
    <> Some (Js.Normal (Some r)).
Proof.
  split; [|split]; intros Hrun.
  - apply findElementAndParent_result in Hrun.
    destruct Hrun as (_ & _ & _ & Hm). discriminate Hm.
  - unfold DomUtils.findParentElement in Hrun.
    rewrite findParentElement_shape in Hrun.
    apply moveThenTest_found in Hrun.
    destruct Hrun as (k & _ & _ & Htest & _).
    rewrite andb_false_r in Htest. discriminate Htest.
  - unfold DomUtils.findPreviousElementAndParent in Hrun.
    rewrite findPreviousElementAndParent_shape in Hrun.
    apply moveThenTest_found in Hrun.
    destruct Hrun as (k & _ & _ & Htest & _).
    rewrite andb_false_r in Htest. discriminate Htest.
Qed.

#[local] Abbreviation underBoundary := (DomUtils.underBoundary d).

Lemma underBoundary_parent topElement e :
  underBoundary topElement e -> DomUtils.inside d topElement e = true ->
  exists p, Dom.parentNode d e = Some p /\ underBoundary topElement p.
Proof.
  intros (k & b & Hsteps & Hb) Hin. destruct k as [|k].
  - cbn in Hsteps. injection Hsteps as ->. congruence.
  - cbn [DomUtils.steps] in Hsteps.
    destruct (Dom.parentNode d e) as [p|]; [|discriminate].
    exists p. split; [reflexivity|]. exists k, b. auto.
Qed.

(** From a node under the stop node or under an element tagged [BODY],
    [findParentElement] never throws; the previous-sibling searches never
    throw either when a previous sibling has the parent of the node. *)
Theorem searches_do_not_throw_under_the_boundary
    (fuel : nat) (node0 : node) (className tagName : option string)
    (classNames : list string) (topElement : option node)
    (x : Js.Exception) :
  DomUtils.underBoundary d topElement node0 ->
  DomUtils.findParentElement d fuel node0 className tagName topElement
    <> Some (Js.Throw x) /\
  ((forall n s, Dom.previousSibling d n = Some s ->
                Dom.parentNode d s = Dom.parentNode d n) ->
   DomUtils.findPreviousElementAndParent d fuel node0 className tagName
     topElement <> Some (Js.Throw x) /\
   DomUtils.findPreviousElementAndParentByClassNames d fuel node0 classNames
     topElement <> Some (Js.Throw x)).
Proof.
  intros Hunder.
  unfold DomUtils.findParentElement, DomUtils.findPreviousElementAndParent,
    DomUtils.findPreviousElementAndParentByClassNames.
  rewrite findParentElement_shape, findPreviousElementAndParent_shape,
    findPreviousElementAndParentByClassNames_shape.
  split.
  - apply (moveThenTest_no_throw d _ _ topElement (underBoundary topElement));
      [|exact Hunder].
    apply underBoundary_parent.
  - intros Hsiblings.
    assert (Hstep : forall e,
              underBoundary topElement e ->
              DomUtils.inside d topElement e = true ->
              exists e', DomUtils.previousOrParent d e = Some e' /\
                         underBoundary topElement e').
    { intros e He Hin. unfold DomUtils.previousOrParent.
      destruct (Dom.previousSibling d e) as [s|] eqn:Hs;
        [|apply underBoundary_parent; assumption].
      exists s. split; [reflexivity|].
      destruct (underBoundary_parent _ _ He Hin) as (p & Hp & k & b & Hk & Hb).
      exists (S k), b. split; [|exact Hb].
      cbn [DomUtils.steps]. rewrite (Hsiblings _ _ Hs), Hp. exact Hk. }
    split;
      apply (moveThenTest_no_throw d _ _ topElement
               (underBoundary topElement) Hstep); exact Hunder.
Qed.

End SearchResults.

Lemma findElementAndParent_nearest_self_or_ancestor_witness :
  DomUtils.findElementAndParent Sample.dom 12 Sample.start (Some "x"%string)
    None None = Some (Js.Normal (Some Sample.divX)).
Proof.
  apply (findElementAndParent_nearest_self_or_ancestor Sample.dom 12
           Sample.start (Some "x"%string) None None Sample.divX).
  exists 1%nat. split; [lia|]. split; [reflexivity|].
  split; [reflexivity|]. split; [vm_compute; reflexivity|].
  intros j Hj. assert (j = 0%nat) as -> by lia.
  exists Sample.start. split; [reflexivity|].
  split; vm_compute; reflexivity.
Defined.


Lemma findParentElement_nearest_strict_ancestor_witness :
  DomUtils.findParentElement Sample.dom 12 Sample.start (Some "x"%string)
    None None = Some (Js.Normal (Some Sample.divX)).
Proof.
  apply (findParentElement_nearest_strict_ancestor Sample.dom 12
           Sample.start (Some "x"%string) None None Sample.divX).
  exists 0%nat. split; [lia|]. split; [reflexivity|].
  split; [vm_compute; reflexivity|].
  intros j Hj. assert (j = 0%nat) as -> by lia.
  exists Sample.start. split; [reflexivity|].
  split; [vm_compute; reflexivity|lia].
Defined.

Lemma findPreviousElementAndParent_first_on_the_walk_witness :
  DomUtils.findPreviousElementAndParent Sample.dom 12 Sample.list_
    (Some "x"%string) None None = Some (Js.Normal (Some Sample.divX)) /\
  DomUtils.findPreviousElementAndParentByClassNames Sample.dom 12 Sample.divC
    ["b"%string] None = Some (Js.Normal (Some Sample.divB)).
Proof.
  split.
  - apply (findPreviousElementAndParent_first_on_the_walk Sample.dom 12
             Sample.list_ (Some "x"%string) None [] None Sample.divX).
    exists 1%nat. split; [lia|]. split; [reflexivity|].
    split; [vm_compute; reflexivity|].
    intros j Hj. destruct j as [|j].
    + exists Sample.list_. split; [reflexivity|].
      split; [vm_compute; reflexivity|lia].
    + assert (j = 0%nat) as -> by lia.
      exists Sample.text. split; [reflexivity|].
      split; [vm_compute; reflexivity|]. intros _. vm_compute. reflexivity.
  - apply (findPreviousElementAndParent_first_on_the_walk Sample.dom 12
             Sample.divC None None ["b"%string] None Sample.divB).
    exists 0%nat. split; [lia|]. split; [reflexivity|].
    split; [vm_compute; reflexivity|].
    intros j Hj. assert (j = 0%nat) as -> by lia.
    exists Sample.divC. split; [reflexivity|].
    split; [vm_compute; reflexivity|lia].
Defined.

Lemma Sample_siblings n s :
  Dom.previousSibling Sample.dom n = Some s ->
  Dom.parentNode Sample.dom s = Dom.parentNode Sample.dom n.
Proof. destruct n; cbn; intros [= <-]; reflexivity. Qed.

Lemma searches_do_not_throw_under_the_boundary_witness :
  DomUtils.findParentElement Sample.dom 12 Sample.divC (Some "none"%string)
    None None <> Some (Js.Throw DomUtils.nullDereference) /\
  DomUtils.findPreviousElementAndParent Sample.dom 12 Sample.divC
    (Some "none"%string) None None
  <> Some (Js.Throw DomUtils.nullDereference) /\
  DomUtils.findPreviousElementAndParentByClassNames Sample.dom 12 Sample.divC
    ["none"%string] None <> Some (Js.Throw DomUtils.nullDereference).
Proof.
  destruct (searches_do_not_throw_under_the_boundary Sample.dom 12
              Sample.divC (Some "none"%string) None ["none"%string] None
              DomUtils.nullDereference) as [Hparent Hprevious].
  - exists 3%nat, Sample.body. split; reflexivity.
  - split; [exact Hparent|]. apply Hprevious. exact Sample_siblings.
Defined.

(** On a tree each search has one completion, which every bound above
    the position of the start node plus one yields; the one of
    [findElementAndParent] is normal. *)
Theorem searches_complete_whatever_the_bound {node : Type} `{EqDecision node}
    (d : Dom.t node) (pos : node -> nat) (node0 : node)
    (className tagName : option string) (classNames : list string)
    (topElement : option node) :
  Dom.documentOrder d pos ->
  exists result cParent cPrevious cNames,
    forall fuel, (S (pos node0) < fuel)%nat ->
      DomUtils.findElementAndParent d fuel node0 className tagName topElement
      = Some (Js.Normal result) /\
      DomUtils.findParentElement d fuel node0 className tagName topElement
      = Some cParent /\
      DomUtils.findPreviousElementAndParent d fuel node0 className tagName
        topElement = Some cPrevious /\
      DomUtils.findPreviousElementAndParentByClassNames d fuel node0
        classNames topElement = Some cNames.
Proof.
  intros Horder.
  destruct (searches_terminate d pos Horder (S (S (pos node0))) node0
              className tagName classNames topElement ltac:(lia))
    as (HA & HB & HC & HD).
  unfold DomUtils.findElementAndParent, DomUtils.findParentElement,
    DomUtils.findPreviousElementAndParent,
    DomUtils.findPreviousElementAndParentByClassNames in *.
  rewrite findParentElement_shape in HB.
  rewrite findPreviousElementAndParent_shape in HC.
  rewrite findPreviousElementAndParentByClassNames_shape in HD.
  destruct (DomUtils.findElementAndParent_loop d (S (S (pos node0)))
              className tagName topElement (Some node0))
    as [[result|x]|] eqn:EA; [| |congruence].
  2: { exfalso. exact (findElementAndParent_no_throw d _ _ _ _ _ _ EA). }
  destruct (DomUtils.moveThenTest d (Dom.parentNode d) _ _ topElement
              (Some node0)) as [cParent|] eqn:EB; [|congruence].
  destruct (DomUtils.moveThenTest d (DomUtils.previousOrParent d)
              (fun e => DomUtils.isElement d e
                        && DomUtils.matches d className tagName e)
              _ topElement (Some node0)) as [cPrevious|] eqn:EC;
    [|congruence].
  destruct (DomUtils.moveThenTest d (DomUtils.previousOrParent d)
              (fun e => DomUtils.isElement d e
                        && DomUtils.containsAllClassNames (Dom.classList d e)
                             classNames)
              _ topElement (Some node0)) as [cNames|] eqn:ED; [|congruence].
  exists result, cParent, cPrevious, cNames. intros fuel Hfuel.
  rewrite findParentElement_shape, findPreviousElementAndParent_shape,
    findPreviousElementAndParentByClassNames_shape.
  split; [|split; [|split]].
  - eapply findElementAndParent_stable; [exact EA|lia].
  - eapply moveThenTest_stable; [exact EB|lia].
  - eapply moveThenTest_stable; [exact EC|lia].
  - eapply moveThenTest_stable; [exact ED|lia].
Qed.

Lemma searches_complete_whatever_the_bound_witness :
  exists result cParent cPrevious cNames,
    forall fuel, (S (Sample.pos Sample.start) < fuel)%nat ->
      DomUtils.findElementAndParent Sample.dom fuel Sample.start
        (Some "x"%string) None None = Some (Js.Normal result) /\
      DomUtils.findParentElement Sample.dom fuel Sample.start
        (Some "x"%string) None None = Some cParent /\
      DomUtils.findPreviousElementAndParent Sample.dom fuel Sample.start
        (Some "x"%string) None None = Some cPrevious /\
      DomUtils.findPreviousElementAndParentByClassNames Sample.dom fuel
        Sample.start ["x"%string] None = Some cNames.
Proof.
  exact (searches_complete_whatever_the_bound Sample.dom Sample.pos
           Sample.start (Some "x"%string) None ["x"%string] None
           Sample_documentOrder).
Defined.

(** ** Class-backed state *)

(** With a name that is a class token, [setBooleanByClass] completes;
    afterwards [getBooleanByClass] returns [true] exactly when the value
    given was the boolean [true] (any other value removes the class), and
    the other classes, the dataset and the inline style are as before.
    With a name that is empty or holds white space it throws the
    DOMException of the class list and the element is as before. *)
Theorem setBooleanByClass_then_getBooleanByClass
    (name : string) (booleanValue : Js.Value) (e : Element) :
  (classList_.tokenError name = None ->
   exists e',
     DomUtils.setBooleanByClass name booleanValue e = (Js.Normal tt, e') /\
     DomUtils.getBooleanByClass name e'
     = (Js.Normal (match booleanValue with
                   | Js.Boolean true => true
                   | _ => false
                   end), e') /\
     (forall other, other <> name ->
        (other ∈ classList e' <-> other ∈ classList e)) /\
     dataset e' = dataset e /\ style e' = style e) /\
  (forall x, classList_.tokenError name = Some x ->
     DomUtils.setBooleanByClass name booleanValue e = (Js.Throw x, e)).
Proof.
  unfold DomUtils.setBooleanByClass, DomUtils.getBooleanByClass.
  unfold classList_.add, classList_.remove. split.
  - intros Hvalid. rewrite Hvalid.
    assert (Hadd : exists e',
              modify (fun e => {| classList := {[name]} ∪ classList e;
                                  dataset := dataset e; style := style e |}) e
              = (Js.Normal tt, e') /\
              classList_.contains name e' = (Js.Normal true, e') /\
              (forall other, other <> name ->
                 (other ∈ classList e' <-> other ∈ classList e)) /\
              dataset e' = dataset e /\ style e' = style e).
    { eexists. split; [reflexivity|]. run. split; [|split; [|split]].
      - rewrite bool_decide_eq_true_2; [reflexivity|].
        apply elem_of_union. left. apply elem_of_singleton. reflexivity.
      - intros other Hne. rewrite elem_of_union, elem_of_singleton. tauto.
      - reflexivity.
      - reflexivity. }
    assert (Hremove : exists e',
              modify (fun e => {| classList := classList e ∖ {[name]};
                                  dataset := dataset e; style := style e |}) e
              = (Js.Normal tt, e') /\
              classList_.contains name e' = (Js.Normal false, e') /\
              (forall other, other <> name ->
                 (other ∈ classList e' <-> other ∈ classList e)) /\
              dataset e' = dataset e /\ style e' = style e).
    { eexists. split; [reflexivity|]. run. split; [|split; [|split]].
      - rewrite bool_decide_eq_false_2; [reflexivity|].
        rewrite elem_of_difference, elem_of_singleton. tauto.
      - intros other Hne.
        rewrite elem_of_difference, elem_of_singleton. tauto.
      - reflexivity.
      - reflexivity. }
    destruct booleanValue as [|[|]| | |]; assumption.
  - intros x Hinvalid. rewrite Hinvalid.
    destruct booleanValue as [|[|]| | |]; reflexivity.
Qed.

Lemma setBooleanByClass_then_getBooleanByClass_witness :
  (exists e',
     DomUtils.setBooleanByClass "open" (Js.Boolean true) Sample.blank
     = (Js.Normal tt, e') /\
     DomUtils.getBooleanByClass "open" e' = (Js.Normal true, e')) /\
  DomUtils.setBooleanByClass "is open" (Js.Boolean true) Sample.blank
  = (Js.Throw (Js.DOMException "InvalidCharacterError"), Sample.blank).
Proof.
  split.
  - destruct (setBooleanByClass_then_getBooleanByClass "open"
                (Js.Boolean true) Sample.blank) as [Hvalid _].
    destruct (Hvalid ltac:(reflexivity)) as (e' & Hset & Hget & _).
    exists e'. split; [exact Hset|exact Hget].
  - apply (setBooleanByClass_then_getBooleanByClass "is open"
             (Js.Boolean true) Sample.blank). reflexivity.
Defined.

(** [getOptionByClass] leaves the element alone and returns the first
    entry of [options], in list order, that is a class of the element; it
    returns [undefined] exactly when no entry is. *)
Theorem getOptionByClass_first_present (options : list string) (e : Element) :
  (forall option,
     DomUtils.getOptionByClass options e = (Js.Normal (Some option), e) <->
     exists before after,
       options = before ++ option :: after /\
       option ∈ classList e /\
       forall other, other ∈ before -> other ∉ classList e) /\
  (DomUtils.getOptionByClass options e = (Js.Normal None, e) <->
   forall option, option ∈ options -> option ∉ classList e).
Proof.
  induction options as [|o options [IHsome IHnone]].
  - split.
    + intros option. split; [discriminate|].
      intros (before & after & Heq & _). destruct before; discriminate.
    + split; [|reflexivity]. intros _ option Hin. inversion Hin.
  - cbn [DomUtils.getOptionByClass]. run.
    destruct (bool_decide_reflect (o ∈ classList e)) as [Ho|Ho].
    + split.
      * intros option. split.
        -- intros [= <-]. exists [], options. split; [reflexivity|].
           split; [exact Ho|]. intros other Hin. inversion Hin.
        -- intros (before & after & Heq & Hpresent & Habsent).
           destruct before as [|b before]; cbn in Heq.
           ++ injection Heq as -> _. reflexivity.
           ++ injection Heq as -> _. exfalso.
              apply (Habsent b); [left|exact Ho].
      * split; [discriminate|]. intros Hnone. exfalso.
        apply (Hnone o); [left|exact Ho].
    + split.
      * intros option. rewrite IHsome. split.
        -- intros (before & after & -> & Hpresent & Habsent).
           exists (o :: before), after. split; [reflexivity|].
           split; [exact Hpresent|]. intros other Hin.
           apply list_elem_of_In in Hin. destruct Hin as [<-|Hin];
             [exact Ho|]. apply Habsent, list_elem_of_In, Hin.
        -- intros (before & after & Heq & Hpresent & Habsent).
           destruct before as [|b before]; cbn in Heq.
           ++ injection Heq as -> _. contradiction.
           ++ injection Heq as -> ->. exists before, after.
              split; [reflexivity|]. split; [exact Hpresent|].
              intros other Hin. apply Habsent. right. exact Hin.
      * rewrite IHnone. split.
        -- intros Hnone option Hin. apply list_elem_of_In in Hin.
           destruct Hin as [<-|Hin]; [exact Ho|].
           apply Hnone, list_elem_of_In, Hin.
        -- intros Hnone option Hin. apply Hnone. right. exact Hin.
Qed.

Lemma getOptionByClass_first_present_witness :
  DomUtils.getOptionByClass ["a"; "b"; "c"]%string
    {| classList := {["c"; "b"]}%string; dataset := ∅; style := ∅ |}
  = (Js.Normal (Some "b"%string),
     {| classList := {["c"; "b"]}%string; dataset := ∅; style := ∅ |}) /\
  DomUtils.getOptionByClass ["a"; "b"]%string Sample.blank
  = (Js.Normal None, Sample.blank).
Proof.
  split.
  - apply (getOptionByClass_first_present ["a"; "b"; "c"]%string).
    exists ["a"%string], ["c"%string]. split; [reflexivity|].
    split.
    + apply (bool_decide_unpack _). vm_compute. exact I.
    + intros other Hin. apply list_elem_of_In in Hin.
      destruct Hin as [<-|[]].
      apply (bool_decide_unpack _). vm_compute. exact I.
  - apply (getOptionByClass_first_present ["a"; "b"]%string Sample.blank).
    intros option _. apply not_elem_of_empty.
Defined.

(** Whether it completes or throws, [setOptionByClass] leaves the
    dataset, the inline style and every class that is not in [options] as
    they were. *)
Theorem setOptionByClass_touches_only_the_options
    (options : list string) (optionValue : string) (e : Element) :
  dataset (snd (DomUtils.setOptionByClass options optionValue e)) = dataset e /\
  style (snd (DomUtils.setOptionByClass options optionValue e)) = style e /\
  forall class, class ∉ options ->
    (class ∈ classList (snd (DomUtils.setOptionByClass options optionValue e))
     <-> class ∈ classList e).
Proof.
  unfold DomUtils.setOptionByClass.
  destruct (negb (bool_decide (optionValue ∈ options))).
  - cbn. repeat split; auto.
  - exact (setOptionByClass_loop_frame optionValue options e).
Qed.

Lemma setOptionByClass_touches_only_the_options_witness :
  "other"%string ∈
    classList (snd (DomUtils.setOptionByClass ["a"; "b"]%string "b"
                      {| classList := {["a"; "other"]}%string;
                         dataset := ∅; style := ∅ |})).
Proof.
  apply (setOptionByClass_touches_only_the_options ["a"; "b"]%string "b").
  - apply (bool_decide_unpack _). vm_compute. exact I.
  - apply (bool_decide_unpack _). vm_compute. exact I.
Defined.

(** ** Dataset accessors *)

(** After [setStringInDataset] with a camelCase name,
    [getStringInDataset] returns the value converted to a string (a string
    itself, and the string [undefined] for [undefined]); the other keys,
    the class list and the inline style are as before.  On a key that is
    absent the getter returns [undefined]. *)
Theorem setStringInDataset_then_getStringInDataset `{StringUtils}
    (name : string) (stringValue : Js.Value) (e : Element) :
  (isCamelCase name = true ->
   exists e',
     DomUtils.setStringInDataset name stringValue e = (Js.Normal tt, e') /\
     DomUtils.getStringInDataset name e'
     = (Js.Normal (Js.Str (Js.toString stringValue)), e') /\
     (forall other, other <> name -> dataset e' !! other = dataset e !! other) /\
     classList e' = classList e /\ style e' = style e) /\
  (dataset e !! name = None ->
   DomUtils.getStringInDataset name e = (Js.Normal Js.Undefined, e)).
Proof.
  split.
  - intros Hname. unfold DomUtils.setStringInDataset. rewrite Hname.
    cbn [negb]. eexists. split; [reflexivity|].
    unfold DomUtils.getStringInDataset. run.
    rewrite lookup_insert_eq. split; [reflexivity|].
    split; [|split; reflexivity].
    intros other Hne. apply lookup_insert_ne. congruence.
  - intros Hnone. unfold DomUtils.getStringInDataset. run.
    rewrite Hnone. reflexivity.
Qed.

Lemma setStringInDataset_then_getStringInDataset_witness :
  (exists e',
     DomUtils.setStringInDataset (H := Sample.stringUtils) "title"
       Js.Undefined Sample.blank = (Js.Normal tt, e') /\
     DomUtils.getStringInDataset "title" e'
     = (Js.Normal (Js.Str "undefined"), e')) /\
  DomUtils.getStringInDataset "title" Sample.blank
  = (Js.Normal Js.Undefined, Sample.blank).
Proof.
  destruct (setStringInDataset_then_getStringInDataset
              (H := Sample.stringUtils) "title" Js.Undefined Sample.blank)
    as [Hset Hunset].
  split.
  - destruct (Hset ltac:(reflexivity)) as (e' & Hrun & Hget & _).
    exists e'. split; [exact Hrun|exact Hget].
  - apply Hunset. reflexivity.
Defined.

(** After [setBooleanInDataset] with a camelCase name and a boolean,
    [getBooleanInDataset] returns that boolean. *)
Theorem setBooleanInDataset_then_getBooleanInDataset `{StringUtils}
    (name : string) (b : bool) (e : Element) :
  isCamelCase name = true ->
  exists e',
    DomUtils.setBooleanInDataset name (Js.Boolean b) e = (Js.Normal tt, e') /\
    DomUtils.getBooleanInDataset name e' = (Js.Normal b, e').
Proof.
  intros Hname. unfold DomUtils.setBooleanInDataset. rewrite Hname.
  cbn [negb]. eexists. split; [reflexivity|].
  unfold DomUtils.getBooleanInDataset. run.
  rewrite lookup_insert_eq. destruct b; reflexivity.
Qed.

Lemma setBooleanInDataset_then_getBooleanInDataset_witness :
  exists e',
    DomUtils.setBooleanInDataset (H := Sample.stringUtils) "visible"
      (Js.Boolean true) Sample.blank = (Js.Normal tt, e') /\
    DomUtils.getBooleanInDataset "visible" e' = (Js.Normal true, e').
Proof.
  exact (setBooleanInDataset_then_getBooleanInDataset
           (H := Sample.stringUtils) "visible" true Sample.blank
           ltac:(reflexivity)).
Defined.

(** ** Pixel values in the inline and in the computed style *)


Lemma safe_below_1e21 (v : Z) : Z.abs v <= 2 ^ 53 -> Z.abs v < 10 ^ 21.
Proof.
  intros Hv. assert (H : 2 ^ 53 < 10 ^ 21) by reflexivity.
  eapply Z.le_lt_trans; [exact Hv|exact H].
Qed.


Lemma computed_pixel_parse `{StringUtils} `{Window}
    (name unit : string) (v : Z) (e : Element) :
  isDashCase name = true -> Z.abs v < 10 ^ 21 ->
  String.length unit = 2%nat ->
  getComputedStyle e name = Js.numberToString v +:+ unit ->
  ComputeSize.getPixelValue name e = (Js.Normal (Js.Number v), e).
Proof.
  intros Hname Hv Hunit Hcomputed.
  unfold ComputeSize.getPixelValue, mbind, M_bind.
  rewrite getValue_dash by exact Hname. unfold mret, M_ret.
  rewrite Hcomputed, PixelFacts.substring_drops_unit by exact Hunit.
  rewrite JsFacts.parseInt_numberToString by exact Hv. reflexivity.
Qed.



(** On a value of one or two characters [getPixelValueInStyle] returns
    [NaN]; so does [getPixelValue] on a computed value of at most two
    characters, the empty string of a property without a value
    included. *)
Theorem pixel_getters_on_short_values `{StringUtils} `{Window} `{Css}
    (name value : string) (e : Element) :
  (style e !! name = Some value -> value <> EmptyString ->
   (String.length value <= 2)%nat ->
   DomUtils.getPixelValueInStyle name e = (Js.Normal Js.NaN, e)) /\
  (isDashCase name = true ->
   (String.length (getComputedStyle e name) <= 2)%nat ->
   ComputeSize.getPixelValue name e = (Js.Normal Js.NaN, e)).
Proof.
  split.
  - intros Hvalue Hne Hlen. unfold DomUtils.getPixelValueInStyle. run.
    rewrite Hvalue. cbn [default from_option]. unfold id.
    assert (Hread : (if isProperty name then Some value else Some value)
                    = Some value) by (destruct (isProperty name); reflexivity).
    rewrite Hread.
    rewrite bool_decide_eq_false_2 by congruence.
    rewrite PixelFacts.substring_of_short by exact Hlen. reflexivity.
  - intros Hname Hlen. unfold ComputeSize.getPixelValue, mbind, M_bind.
    rewrite getValue_dash by exact Hname. unfold mret, M_ret.
    rewrite PixelFacts.substring_of_short by exact Hlen. reflexivity.
Qed.

Lemma pixel_getters_on_short_values_witness :
  DomUtils.getPixelValueInStyle (H0 := Sample.css) "width"
    {| classList := ∅; dataset := ∅;
       style := {["width"%string := "7"%string]} |}
  = (Js.Normal Js.NaN,
     {| classList := ∅; dataset := ∅;
        style := {["width"%string := "7"%string]} |}) /\
  ComputeSize.getPixelValue (H := Sample.stringUtils) (H0 := Sample.window)
    "z-index"
    {| classList := ∅; dataset := ∅;
       style := {["z-index"%string := "10"%string]} |}
  = (Js.Normal Js.NaN,
     {| classList := ∅; dataset := ∅;
        style := {["z-index"%string := "10"%string]} |}).
Proof.
  split.
  - apply (pixel_getters_on_short_values (H := Sample.stringUtils)
             (H0 := Sample.window) (H1 := Sample.css) "width" "7").
    + reflexivity.
    + discriminate.
    + cbn. lia.
  - apply (pixel_getters_on_short_values (H := Sample.stringUtils)
             (H0 := Sample.window) (H1 := Sample.css) "z-index" "").
    + reflexivity.
    + vm_compute. lia.
Defined.

(** [getPixelValue] on a computed value made of an integer up to [2^53]
    in absolute value and a unit of two characters returns the integer. *)
Theorem getPixelValue_of_integer_and_unit `{StringUtils} `{Window}
    (name unit : string) (v : Z) (e : Element) :
  isDashCase name = true -> Z.abs v <= 2 ^ 53 ->
  String.length unit = 2%nat ->
  getComputedStyle e name = Js.numberToString v +:+ unit ->
  ComputeSize.getPixelValue name e = (Js.Normal (Js.Number v), e).
Proof.
  intros Hname Hv. apply computed_pixel_parse;
    [exact Hname|apply safe_below_1e21, Hv].
Qed.

Lemma getPixelValue_of_integer_and_unit_witness :
  ComputeSize.getPixelValue (H := Sample.stringUtils) (H0 := Sample.window)
    "margin-left" Sample.blank = (Js.Normal (Js.Number 0), Sample.blank).
Proof.
  apply (getPixelValue_of_integer_and_unit (H := Sample.stringUtils)
           (H0 := Sample.window) "margin-left" "px" 0 Sample.blank).
  - reflexivity.
  - vm_compute. discriminate.
  - reflexivity.
  - reflexivity.
Defined.






(** ** Outer sizes *)

Lemma roundToDouble_safe (z : Z) :
  Z.abs z <= 2 ^ 53 -> Js.roundToDouble z = z.
Proof.
  intros Hz. unfold Js.roundToDouble.
  destruct (Z.leb_spec (Z.abs z) (2 ^ 53)); [reflexivity|lia].
Qed.

Section OuterSizeFacts.
Context `{StringUtils} `{Window} `{Layout}.

(** The sum both outer sizes compute: the offset size, then the two
    margins read through [getPixelValue]. *)
Lemma outer_sum (size : Element -> Z) (first second : string)
    (unit1 unit2 : string) (a b : Z) (e : Element) :
  isDashCase first = true -> isDashCase second = true ->
  Z.abs (size e) <= 2 ^ 51 -> Z.abs a <= 2 ^ 51 -> Z.abs b <= 2 ^ 51 ->
  String.length unit1 = 2%nat -> String.length unit2 = 2%nat ->
  getComputedStyle e first = Js.numberToString a +:+ unit1 ->
  getComputedStyle e second = Js.numberToString b +:+ unit2 ->
  (s ← gets size;
   x ← ComputeSize.getPixelValue first;
   y ← ComputeSize.getPixelValue second;
   mret (Js.plus (Js.plus (Js.Number s) x) y)) e
  = (Js.Normal (Js.Number (size e + a + b)), e).
Proof.
  intros Hfirst Hsecond Hs Ha Hb Hu1 Hu2 Hc1 Hc2.
  assert (Hpow : 2 ^ 53 = 4 * 2 ^ 51) by reflexivity.
  assert (Hlt : 2 ^ 53 < 10 ^ 21) by reflexivity.
  unfold mbind, M_bind, gets.
  rewrite (computed_pixel_parse first unit1 a e Hfirst ltac:(lia) Hu1 Hc1).
  rewrite (computed_pixel_parse second unit2 b e Hsecond ltac:(lia) Hu2 Hc2).
  unfold mret, M_ret. cbn [Js.plus Js.toNumber].
  rewrite (roundToDouble_safe (size e + a)) by lia.
  rewrite roundToDouble_safe by lia. reflexivity.
Qed.

(** A margin that reads as [NaN] makes the sum [NaN]. *)
Lemma outer_sum_NaN (size : Element -> Z) (first second : string)
    (e : Element) :
  isDashCase first = true -> isDashCase second = true ->
  ComputeSize.getPixelValue first e = (Js.Normal Js.NaN, e) \/
  ComputeSize.getPixelValue second e = (Js.Normal Js.NaN, e) ->
  (s ← gets size;
   x ← ComputeSize.getPixelValue first;
   y ← ComputeSize.getPixelValue second;
   mret (Js.plus (Js.plus (Js.Number s) x) y)) e
  = (Js.Normal Js.NaN, e).
Proof.
  intros Hfirst Hsecond HNaN. unfold mbind, M_bind, gets.
  unfold ComputeSize.getPixelValue, mbind, M_bind, mret, M_ret in *.
  rewrite !getValue_dash in * by assumption. cbv beta iota in *.
  destruct (PixelFacts.parseInt_number_or_NaN
              (Js.substring (getComputedStyle e first) 0
                 (Z.of_nat (String.length (getComputedStyle e first)) - 2)))
    as [E1|[x E1]]; rewrite E1 in *;
  destruct (PixelFacts.parseInt_number_or_NaN
              (Js.substring (getComputedStyle e second) 0
                 (Z.of_nat (String.length (getComputedStyle e second)) - 2)))
    as [E2|[y E2]]; rewrite E2 in *; try reflexivity.
  destruct HNaN as [HNaN|HNaN]; discriminate HNaN.
Qed.

(** A margin name that [isDashCase] rejects makes the computation throw. *)
Lemma outer_sum_throws (size : Element -> Z) (first second : string)
    (e : Element) :
  isDashCase first = false \/
  (isDashCase first = true /\ isDashCase second = false) ->
  (s ← gets size;
   x ← ComputeSize.getPixelValue first;
   y ← ComputeSize.getPixelValue second;
   mret (Js.plus (Js.plus (Js.Number s) x) y)) e
  = (Js.Throw ComputeSize.dashCaseExpected, e).
Proof.
  intros [Hfirst|[Hfirst Hsecond]]; unfold mbind, M_bind, gets;
    unfold ComputeSize.getPixelValue, mbind, M_bind.
  - rewrite getValue_not_dash by exact Hfirst. reflexivity.
  - rewrite getValue_dash by exact Hfirst. unfold mret, M_ret.
    rewrite getValue_not_dash by exact Hsecond. reflexivity.
Qed.

End OuterSizeFacts.

(** [getOuterHeight] and [getOuterHeightByComputeSize] leave the element
    alone.  When the offset height and the integers of the computed
    [margin-top] and [margin-bottom], each followed by a unit of two
    characters, are at most [2^51] in absolute value, they return the
    offset height plus the two integers; when one of the two margins reads
    as [NaN] they return [NaN]; when [isDashCase] rejects one of the two
    names they throw IllegalArgument. *)
Theorem getOuterHeight_adds_the_margins `{StringUtils} `{Window} `{Layout}
    (unit1 unit2 : string) (top bottom : Z) (e : Element) :
  (isDashCase "margin-top" = true -> isDashCase "margin-bottom" = true ->
   Z.abs (offsetHeight e) <= 2 ^ 51 ->
   Z.abs top <= 2 ^ 51 -> Z.abs bottom <= 2 ^ 51 ->
   String.length unit1 = 2%nat -> String.length unit2 = 2%nat ->
   getComputedStyle e "margin-top" = Js.numberToString top +:+ unit1 ->
   getComputedStyle e "margin-bottom" = Js.numberToString bottom +:+ unit2 ->
   DomUtils.getOuterHeight e
   = (Js.Normal (Js.Number (offsetHeight e + top + bottom)), e) /\
   DomUtils.getOuterHeightByComputeSize e
   = (Js.Normal (Js.Number (offsetHeight e + top + bottom)), e)) /\
  (isDashCase "margin-top" = true -> isDashCase "margin-bottom" = true ->
   ComputeSize.getPixelValue "margin-top" e = (Js.Normal Js.NaN, e) \/
   ComputeSize.getPixelValue "margin-bottom" e = (Js.Normal Js.NaN, e) ->
   DomUtils.getOuterHeight e = (Js.Normal Js.NaN, e) /\
   DomUtils.getOuterHeightByComputeSize e = (Js.Normal Js.NaN, e)) /\
  (isDashCase "margin-top" = false \/
   (isDashCase "margin-top" = true /\ isDashCase "margin-bottom" = false) ->
   DomUtils.getOuterHeight e = (Js.Throw ComputeSize.dashCaseExpected, e) /\
   DomUtils.getOuterHeightByComputeSize e
   = (Js.Throw ComputeSize.dashCaseExpected, e)).
Proof.
  split; [|split].
  - intros Hfirst Hsecond Hs Ha Hb Hu1 Hu2 Hc1 Hc2.
    split;
      apply (outer_sum offsetHeight "margin-top" "margin-bottom"
               unit1 unit2 top bottom e); assumption.
  - intros Hfirst Hsecond HNaN.
    split;
      apply (outer_sum_NaN offsetHeight "margin-top" "margin-bottom" e);
      assumption.
  - intros Hreject.
    split;
      apply (outer_sum_throws offsetHeight "margin-top" "margin-bottom" e);
      assumption.
Qed.

(** [getOuterWidth] and [getOuterWidthByComputeSize]: the same with the
    offset width, [margin-left] and [margin-right]. *)
Theorem getOuterWidth_adds_the_margins `{StringUtils} `{Window} `{Layout}
    (unit1 unit2 : string) (left right : Z) (e : Element) :
  (isDashCase "margin-left" = true -> isDashCase "margin-right" = true ->
   Z.abs (offsetWidth e) <= 2 ^ 51 ->
   Z.abs left <= 2 ^ 51 -> Z.abs right <= 2 ^ 51 ->
   String.length unit1 = 2%nat -> String.length unit2 = 2%nat ->
   getComputedStyle e "margin-left" = Js.numberToString left +:+ unit1 ->
   getComputedStyle e "margin-right" = Js.numberToString right +:+ unit2 ->
   DomUtils.getOuterWidth e
   = (Js.Normal (Js.Number (offsetWidth e + left + right)), e) /\
   DomUtils.getOuterWidthByComputeSize e
   = (Js.Normal (Js.Number (offsetWidth e + left + right)), e)) /\
  (isDashCase "margin-left" = true -> isDashCase "margin-right" = true ->
   ComputeSize.getPixelValue "margin-left" e = (Js.Normal Js.NaN, e) \/
   ComputeSize.getPixelValue "margin-right" e = (Js.Normal Js.NaN, e) ->
   DomUtils.getOuterWidth e = (Js.Normal Js.NaN, e) /\
   DomUtils.getOuterWidthByComputeSize e = (Js.Normal Js.NaN, e)) /\
  (isDashCase "margin-left" = false \/
   (isDashCase "margin-left" = true /\ isDashCase "margin-right" = false) ->
   DomUtils.getOuterWidth e = (Js.Throw ComputeSize.dashCaseExpected, e) /\
   DomUtils.getOuterWidthByComputeSize e
   = (Js.Throw ComputeSize.dashCaseExpected, e)).
Proof.
  split; [|split].
  - intros Hfirst Hsecond Hs Ha Hb Hu1 Hu2 Hc1 Hc2.
    split;
      apply (outer_sum offsetWidth "margin-left" "margin-right"
               unit1 unit2 left right e); assumption.
  - intros Hfirst Hsecond HNaN.
    split;
      apply (outer_sum_NaN offsetWidth "margin-left" "margin-right" e);
      assumption.
  - intros Hreject.
    split;
      apply (outer_sum_throws offsetWidth "margin-left" "margin-right" e);
      assumption.
Qed.

Lemma getOuterHeight_adds_the_margins_witness :
  DomUtils.getOuterHeight (H := Sample.stringUtils) (H0 := Sample.window)
    (H1 := Sample.layout)
    {| classList := ∅; dataset := ∅;
       style := {["margin-top"%string := "5px"%string;
                  "margin-bottom"%string := "5px"%string]} |}
  = (Js.Normal (Js.Number 110),
     {| classList := ∅; dataset := ∅;
        style := {["margin-top"%string := "5px"%string;
                   "margin-bottom"%string := "5px"%string]} |}) /\
  DomUtils.getOuterHeight (H := Sample.stringUtils) (H0 := Sample.window)
    (H1 := Sample.layout) Sample.blank = (Js.Normal Js.NaN, Sample.blank).
Proof.
  split.
  - apply (getOuterHeight_adds_the_margins (H := Sample.stringUtils)
             (H0 := Sample.window) (H1 := Sample.layout) "px" "px" 5 5);
      first [reflexivity | (vm_compute; discriminate)].
  - apply (getOuterHeight_adds_the_margins (H := Sample.stringUtils)
             (H0 := Sample.window) (H1 := Sample.layout) "px" "px" 0 0
             Sample.blank); [reflexivity|reflexivity|].
    left. reflexivity.
Defined.

Lemma getOuterWidth_adds_the_margins_witness :
  DomUtils.getOuterWidth (H := Sample.stringUtils) (H0 := Sample.window)
    (H1 := Sample.layout)
    {| classList := ∅; dataset := ∅;
       style := {["margin-right"%string := "-3px"%string]} |}
  = (Js.Normal (Js.Number 37),
     {| classList := ∅; dataset := ∅;
        style := {["margin-right"%string := "-3px"%string]} |}) /\
  DomUtils.getOuterWidthByComputeSize (H := Sample.stringUtils)
    (H0 := Sample.window) (H1 := Sample.layout) Sample.blank
  = (Js.Normal Js.NaN, Sample.blank).
Proof.
  split.
  - apply (getOuterWidth_adds_the_margins (H := Sample.stringUtils)
             (H0 := Sample.window) (H1 := Sample.layout) "px" "px" 0 (-3));
      first [reflexivity | (vm_compute; discriminate)].
  - apply (getOuterWidth_adds_the_margins (H := Sample.stringUtils)
             (H0 := Sample.window) (H1 := Sample.layout) "px" "px" 0 0
             Sample.blank); [reflexivity|reflexivity|].
    right. reflexivity.
Defined.

(** ** Mixed dataset reads *)

(** The typed getters read the string that is stored, whatever setter
    stored it: after [setBooleanInDataset] with a boolean,
    [getStringInDataset] returns the string [true] or [false] and
    [getIntegerInDataset] returns [NaN]. *)
Theorem dataset_getters_after_setBooleanInDataset `{StringUtils}
    (name : string) (b : bool) (e : Element) :
  isCamelCase name = true ->
  exists e',
    DomUtils.setBooleanInDataset name (Js.Boolean b) e = (Js.Normal tt, e') /\
    DomUtils.getStringInDataset name e'
    = (Js.Normal (Js.Str (if b then "true" else "false")), e') /\
    DomUtils.getIntegerInDataset name e' = (Js.Normal Js.NaN, e').
Proof.
  intros Hname. unfold DomUtils.setBooleanInDataset. rewrite Hname.
  cbn [negb]. eexists. split; [reflexivity|].
  unfold DomUtils.getStringInDataset, DomUtils.getIntegerInDataset. run.
  rewrite lookup_insert_eq. destruct b; split; reflexivity.
Qed.

Lemma dataset_getters_after_setBooleanInDataset_witness :
  exists e',
    DomUtils.setBooleanInDataset (H := Sample.stringUtils) "visible"
      (Js.Boolean false) Sample.blank = (Js.Normal tt, e') /\
    DomUtils.getStringInDataset "visible" e'
    = (Js.Normal (Js.Str "false"), e') /\
    DomUtils.getIntegerInDataset "visible" e' = (Js.Normal Js.NaN, e').
Proof.
  exact (dataset_getters_after_setBooleanInDataset (H := Sample.stringUtils)
           "visible" false Sample.blank ltac:(reflexivity)).
Defined.
